(** * MedPredict AI (medapp.py): encoders, model registry and predictors

    A shallow embedding of [src/medapp.py].  The script is a Streamlit page:
    it loads four pickled artifacts into a dictionary, reads widget values
    and, depending on the chosen analysis, calls an opaque model and shows a
    message.  The embedding keeps

    - the dictionary [models] as a [gmap string (option handle)] that is the
      mutable store of a small state/trace/exception monad;
    - every call that leaves the script (joblib.load, the methods of the
      loaded objects, st.header / st.error / st.success / st.warning) as an
      [event] of the trace, in program order;
    - Python exceptions as the [Raise] outcome of a computation.

    Calls that only lay out the page (page config, CSS, side bar, hero and
    footer markdown, columns) leave no event. *)

From Stdlib Require Import ZArith String List Floats.
From stdpp Require Import base option list strings gmap.

Open Scope string_scope.
Open Scope Z_scope.

(** ** Python values reaching the models *)

(** A feature is a Python [int] or a Python [float] (binary64). *)
Inductive num : Type :=
| PyInt (z : Z)
| PyFloat (f : float).

(** Array-likes of shape (n_samples, n_features). *)
Abbreviation matrix := (list (list num)).

(** ** Exceptions *)

Inductive exn : Type :=
| KeyError (key : string)
| IndexError
| AttributeError (attr : string)
| Exception (msg : string).

Inductive result (A : Type) : Type :=
| Ok (a : A)
| Raise (e : exn).
Arguments Ok {A} a.
Arguments Raise {A} e.

#[global] Instance result_ret : MRet result := λ A a, Ok a.
#[global] Instance result_bind : MBind result := λ A B f r,
  match r with
  | Ok a => f a
  | Raise e => Raise e
  end.

(** ** Opaque artifacts *)

(** What [joblib.load] returns: an object answering [predict],
    [predict_proba] and [transform].  Each method may raise; a method the
    object lacks is one that always raises. *)
Record handle : Type := {
  predict : matrix → result (list Z);
  predict_proba : matrix → result (list (list float));
  transform : list string → result matrix
}.

(** ** Events *)

Inductive st_kind : Type := StHeader | StError | StSuccess | StWarning.

(** A displayed text: a literal, an f-string with one [{prob:.2%}] field,
    or an f-string that ends in [{e}] for a caught exception [e].  The
    renderings of the float and of the exception are left symbolic. *)
Inductive message : Type :=
| Text (s : string)
| Percent (before : string) (prob : float) (after : string)
| Caught (before : string) (e : exn).

Inductive event : Type :=
| St (kind : st_kind) (m : message)
| JoblibLoad (path : string)
| Transform (key : string) (docs : list string)
| Predict (key : string) (X : matrix)
| PredictProba (key : string) (X : matrix).

(** ** The monad: store [models], trace, exceptions *)

Abbreviation registry := (gmap string (option handle)).

Record outcome (A : Type) : Type := {
  trace : list event;
  store : registry;
  res : result A
}.
Arguments trace {A} o.
Arguments store {A} o.
Arguments res {A} o.
Arguments Build_outcome {A} trace store res.

Definition M (A : Type) : Type := registry → outcome A.

#[global] Instance M_ret : MRet M := λ A a s, Build_outcome [] s (Ok a).
#[global] Instance M_bind : MBind M := λ A B f m s,
  match m s with
  | {| trace := t; store := s'; res := Ok a |} =>
      match f a s' with
      | {| trace := t'; store := s''; res := r |} =>
          {| trace := t ++ t'; store := s''; res := r |}
      end
  | {| trace := t; store := s'; res := Raise e |} =>
      {| trace := t; store := s'; res := Raise e |}
  end.

Definition emit (ev : event) : M unit := λ s, Build_outcome [ev] s (Ok tt).
Definition lift {A} (r : result A) : M A := λ s, Build_outcome [] s r.
Definition put (s : registry) : M unit := λ _, Build_outcome [] s (Ok tt).
Definition get : M registry := λ s, Build_outcome [] s (Ok s).

(** [try: body / except Exception as e: handler e].  The store is the one
    the body left when it raised. *)
Definition try_except {A} (body : M A) (handler : exn → M A) : M A := λ s,
  match body s with
  | {| trace := t; store := s'; res := Ok a |} =>
      {| trace := t; store := s'; res := Ok a |}
  | {| trace := t; store := s'; res := Raise e |} =>
      match handler e s' with
      | {| trace := t'; store := s''; res := r |} =>
          {| trace := t ++ t'; store := s''; res := r |}
      end
  end.

(** [models[key]] *)
Definition getitem (key : string) : M (option handle) := λ s,
  match s !! key with
  | Some v => Build_outcome [] s (Ok v)
  | None => Build_outcome [] s (Raise (KeyError key))
  end.

(** [models[key] = v] *)
Definition setitem (key : string) (v : option handle) : M unit := λ s,
  Build_outcome [] (<[key := v]> s) (Ok tt).

(** [seq[i]] for a Python integer index: negative indices count from the
    end, anything outside raises IndexError. *)
Definition py_index {A} (l : list A) (i : Z) : result A :=
  let n := Z.of_nat (length l) in
  let j := if i <? 0 then i + n else i in
  if (0 <=? j) && (j <? n)
  then match l !! Z.to_nat j with
       | Some x => Ok x
       | None => Raise IndexError
       end
  else Raise IndexError.

Definition st_header (s : string) : M unit := emit (St StHeader (Text s)).
Definition st_error (m : message) : M unit := emit (St StError m).
Definition st_success (m : message) : M unit := emit (St StSuccess m).
Definition st_warning (m : message) : M unit := emit (St StWarning m).

(** ** Mapping *)

(** [def map_bool(val): return {'False': 0, 'True': 1, 'Unknown': -1}[val]] *)
Definition map_bool_table : gmap string Z :=
  <["False" := 0]> (<["True" := 1]> (<["Unknown" := -1]> ∅)).

Definition map_bool (val : string) : result Z :=
  match map_bool_table !! val with
  | Some code => Ok code
  | None => Raise (KeyError val)
  end.

(** [def map_sex(val): return 0 if val == "male" else 1] *)
Definition map_sex (val : string) : Z :=
  if String.eqb val "male" then 0 else 1.

(** ** Method calls on registry entries *)

Definition is_none {A} (o : option A) : bool :=
  match o with
  | None => true
  | Some _ => false
  end.

(** [models[key].predict(X)] *)
Definition call_predict (key : string) (X : matrix) : M (list Z) :=
  obj ← getitem key;
  match obj with
  | Some h => emit (Predict key X);; lift (predict h X)
  | None => lift (Raise (AttributeError "predict"))
  end.

(** [models[key].predict_proba(X)] *)
Definition call_predict_proba (key : string) (X : matrix)
  : M (list (list float)) :=
  obj ← getitem key;
  match obj with
  | Some h => emit (PredictProba key X);; lift (predict_proba h X)
  | None => lift (Raise (AttributeError "predict_proba"))
  end.

(** [models[key].transform(docs)] *)
Definition call_transform (key : string) (docs : list string) : M matrix :=
  obj ← getitem key;
  match obj with
  | Some h => emit (Transform key docs);; lift (transform h docs)
  | None => lift (Raise (AttributeError "transform"))
  end.

(** ** Model loading *)

Section Loading.

(** The artifact loader: what [joblib.load(path)] does on this machine,
    an object or an exception. *)
Variable joblib_load : string → result handle.

Definition load (path : string) : M handle :=
  emit (JoblibLoad path);; lift (joblib_load path).

Definition load_models : M registry :=
  put ∅;;
  try_except
    (h ← load "models/hepatitis_model.pkl";
     setitem "hepatitis" (Some h))
    (λ e,
       setitem "hepatitis" None;;
       st_error (Caught "⚠️ Error loading Hepatitis model: " e));;
  try_except
    (h ← load "models/hiv_model.pkl";
     setitem "hiv" (Some h);;
     v ← load "models/vectorizer.pkl";
     setitem "vectorizer" (Some v))
    (λ e,
       setitem "hiv" None;;
       setitem "vectorizer" None;;
       st_error (Caught "⚠️ Error loading HIV model/vectorizer: " e));;
  try_except
    (h ← load "models/tb_predictor_model.pkl";
     setitem "tb" (Some h))
    (λ e,
       setitem "tb" None;;
       st_error (Caught "⚠️ Error loading TB model: " e));;
  get.

End Loading.

(** ** Hepatitis *)

(** The widget values of [hep_form], in the order the form declares them,
    and the state of its submit button. *)
Record hep_form : Type := {
  age : Z;
  sex : string;
  steroid : string;
  antivirals : string;
  fatigue : string;
  anorexia : string;
  spiders : string;
  ascites : string;
  liver_big : string;
  spleen_palpable : string;
  varices : string;
  histology : string;
  bilirubin : float;
  alk_phos : Z;
  sgot : Z;
  albumin : float;
  protime : Z;
  submit : bool
}.

(** The list display [features = [age, map_sex(sex), ...]]; its elements
    are evaluated left to right, so the first unmapped tri-state value
    raises. *)
Definition features (f : hep_form) : result (list num) :=
  let age' := age f in
  let sex' := map_sex (sex f) in
  steroid' ← map_bool (steroid f);
  antivirals' ← map_bool (antivirals f);
  fatigue' ← map_bool (fatigue f);
  anorexia' ← map_bool (anorexia f);
  liver_big' ← map_bool (liver_big f);
  spleen_palpable' ← map_bool (spleen_palpable f);
  spiders' ← map_bool (spiders f);
  ascites' ← map_bool (ascites f);
  varices' ← map_bool (varices f);
  histology' ← map_bool (histology f);
  mret [ PyInt age'; PyInt sex'; PyInt steroid'; PyInt antivirals';
         PyInt fatigue'; PyInt anorexia'; PyInt liver_big';
         PyInt spleen_palpable'; PyInt spiders'; PyInt ascites';
         PyInt varices'; PyInt histology'; PyFloat (bilirubin f);
         PyInt (alk_phos f); PyInt (sgot f); PyFloat (albumin f);
         PyInt (protime f) ].

Definition hepatitis_page (f : hep_form) : M unit :=
  st_header "🫀 Hepatitis Prognosis";;
  model ← getitem "hepatitis";
  if is_none model then
    st_error (Text "⚠️ Hepatitis model not found.")
  else if submit f then
    feats ← lift (features f);
    preds ← call_predict "hepatitis" [feats];
    pred ← lift (py_index preds 0);
    if pred =? 1 then st_success (Text "✅ Favorable Prognosis")
    else st_error (Text "⚠️ Concerning Prognosis")
  else mret tt.

(** ** HIV *)

Definition symptoms : list string :=
  [ "Fever"; "Night Sweats"; "Fatigue"; "Weight Loss"; "Diarrhea";
    "Skin Lesions"; "Oral Candidiasis"; "Lymph Nodes"; "Neuro Symptoms";
    "Opportunistic Infections" ].

(** [selected] is the value of the multiselect (in the order the user
    picked), [assess_risk] the state of the button. *)
Definition hiv_page (selected : list string) (assess_risk : bool) : M unit :=
  st_header "🧪 HIV Risk Assessment";;
  hiv ← getitem "hiv";
  missing ← (if is_none hiv then mret true
             else vectorizer ← getitem "vectorizer"; mret (is_none vectorizer));
  if missing : bool then
    st_error (Text "⚠️ Model or vectorizer not found.")
  else if assess_risk then
    match selected with
    | [] => st_warning (Text "⚠️ Please select symptoms")
    | _ :: _ =>
        vec ← call_transform "vectorizer" [String.concat ", " selected];
        preds ← call_predict "hiv" vec;
        pred ← lift (py_index preds 0);
        proba ← call_predict_proba "hiv" vec;
        row ← lift (py_index proba 0);
        prob ← lift (py_index row pred);
        if pred =? 1
        then st_error (Percent "🚨 High Risk (Confidence: " prob ")")
        else st_success (Percent "✅ Low Risk (Confidence: " prob ")")
    end
  else mret tt.

(** ** Tuberculosis *)

Definition tb_symptoms : list string :=
  [ "Fever"; "Cough"; "Night Sweats"; "Weight Loss"; "Chest Pain";
    "Hemoptysis"; "Fatigue"; "Lymphadenopathy" ].

(** [answer sym] is the value of the select box keyed [sym]. *)
Definition tb_data (answer : string → string) : list num :=
  map (λ sym, PyInt (if String.eqb (answer sym) "Present" then 1 else 0))
      tb_symptoms.

Definition tb_page (answer : string → string) (run : bool) : M unit :=
  st_header "🫁 Tuberculosis Screening";;
  model ← getitem "tb";
  if is_none model then
    st_error (Text "⚠️ TB model not found.")
  else if run then
    preds ← call_predict "tb" [tb_data answer];
    pred ← lift (py_index preds 0);
    proba ← call_predict_proba "tb" [tb_data answer];
    row ← lift (py_index proba 0);
    prob ← lift (py_index row pred);
    if pred =? 1
    then st_error (Percent "🚨 High TB Risk (Confidence: " prob ")")
    else st_success (Percent "✅ Low TB Risk (Confidence: " prob ")")
  else mret tt.

(** ** The script *)

(** Everything one run of the script reads from the browser session. *)
Record session : Type := {
  choice : string;
  hep : hep_form;
  hiv_selected : list string;
  hiv_assess : bool;
  tb_answer : string → string;
  tb_run : bool
}.

(** One run of the script in a process whose resource cache holds no
    registry yet, so that [load_models()] runs its body.  A later run of
    the same process gets the registry of that run back from the cache
    and runs the same page on it. *)
Definition main (joblib_load : string → result handle) (u : session)
  : M unit :=
  load_models joblib_load;;
  if String.eqb (choice u) "Hepatitis" then hepatitis_page (hep u)
  else if String.eqb (choice u) "HIV" then
    hiv_page (hiv_selected u) (hiv_assess u)
  else if String.eqb (choice u) "Tuberculosis" then
    tb_page (tb_answer u) (tb_run u)
  else mret tt.

(** ** Reading traces *)

Definition is_model_call (ev : event) : bool :=
  match ev with
  | Transform _ _ | Predict _ _ | PredictProba _ _ => true
  | _ => false
  end.

(** The calls into loaded objects, in order. *)
Definition model_calls (t : list event) : list event :=
  List.filter is_model_call t.

(** The paths handed to [joblib.load], in order. *)
Definition loads (t : list event) : list string :=
  omap (λ ev, match ev with JoblibLoad path => Some path | _ => None end) t.

(** The documents handed to the vectorizer, one entry per call. *)
Definition vectorizer_inputs (t : list event) : list (list string) :=
  omap (λ ev, match ev with Transform _ docs => Some docs | _ => None end) t.

(** What the page displays, headers apart. *)
Definition displayed (t : list event) : list (st_kind * message) :=
  omap (λ ev, match ev with
              | St StHeader _ => None
              | St kind m => Some (kind, m)
              | _ => None
              end) t.

(** The Streamlit display events, in order. *)
Definition shown (t : list event) : list event :=
  List.filter (λ ev, match ev with St _ _ => true | _ => false end) t.

(** The confidence values displayed. *)
Definition confidences (t : list event) : list float :=
  omap (λ ev, match ev with St _ (Percent _ c _) => Some c | _ => None end) t.

Definition is_ok {A} (r : result A) : bool :=
  match r with
  | Ok _ => true
  | Raise _ => false
  end.

(** The registry entry a load result leaves when nothing else fails. *)
Definition to_entry (r : result handle) : option handle :=
  match r with
  | Ok h => Some h
  | Raise _ => None
  end.

(** The diagnostic of a try block whose body ended in [r]. *)
Definition diagnostic {A} (prefix : string) (r : result A) : list event :=
  match r with
  | Ok _ => []
  | Raise e => [St StError (Caught prefix e)]
  end.

(** The field order of the Hepatitis vector as the specification lists it
    (spiders and ascites before liver-enlarged and spleen-palpable), to be
    compared with [features]. *)
Definition features_in_listed_order (f : hep_form) : result (list num) :=
  steroid' ← map_bool (steroid f);
  antivirals' ← map_bool (antivirals f);
  fatigue' ← map_bool (fatigue f);
  anorexia' ← map_bool (anorexia f);
  spiders' ← map_bool (spiders f);
  ascites' ← map_bool (ascites f);
  liver_big' ← map_bool (liver_big f);
  spleen_palpable' ← map_bool (spleen_palpable f);
  varices' ← map_bool (varices f);
  histology' ← map_bool (histology f);
  mret [ PyInt (age f); PyInt (map_sex (sex f)); PyInt steroid';
         PyInt antivirals'; PyInt fatigue'; PyInt anorexia'; PyInt spiders';
         PyInt ascites'; PyInt liver_big'; PyInt spleen_palpable';
         PyInt varices'; PyInt histology'; PyFloat (bilirubin f);
         PyInt (alk_phos f); PyInt (sgot f); PyFloat (albumin f);
         PyInt (protime f) ].

(** [max(row)] over a row of probabilities. *)
Definition row_max (row : list float) : float :=
  fold_right (λ a b, if PrimFloat.ltb b a then a else b) neg_infinity row.

(** ** Sample sessions *)

Module Sample.

(** A classifier over classes 0 and 1 that answers 0 with probability
    0.25 for class 0 and 0.75 for class 1. *)
Definition clf : handle := {|
  predict := λ _, Ok [0];
  predict_proba := λ _, Ok [[0.25%float; 0.75%float]];
  transform := λ _, Raise (AttributeError "transform")
|}.

(** A three-class classifier that answers class 2. *)
Definition clf3 : handle := {|
  predict := λ _, Ok [2];
  predict_proba := λ _, Ok [[0.25%float; 0.25%float; 0.5%float]];
  transform := λ _, Raise (AttributeError "transform")
|}.

(** A classifier that answers 1. *)
Definition clf_pos : handle := {|
  predict := λ _, Ok [1];
  predict_proba := λ _, Ok [[0.25%float; 0.75%float]];
  transform := λ _, Raise (AttributeError "transform")
|}.

Definition vectorizer : handle := {|
  predict := λ _, Raise (AttributeError "predict");
  predict_proba := λ _, Raise (AttributeError "predict_proba");
  transform := λ docs, Ok (map (λ _, [PyInt 1; PyInt 0]) docs)
|}.

Definition models_of (c : handle) : registry :=
  <["tb" := Some c]> (<["vectorizer" := Some vectorizer]>
    (<["hiv" := Some c]> (<["hepatitis" := Some c]> ∅))).

(** Every artifact loads. *)
Definition disk (path : string) : result handle :=
  if String.eqb path "models/vectorizer.pkl" then Ok vectorizer else Ok clf.

(** Only the HIV model file is unreadable. *)
Definition disk_without_hiv (path : string) : result handle :=
  if String.eqb path "models/hiv_model.pkl"
  then Raise (Exception "No such file: models/hiv_model.pkl")
  else disk path.

(** The form's defaults, with spiders set to "True". *)
Definition form : hep_form := {|
  age := 40; sex := "male"; steroid := "False"; antivirals := "False";
  fatigue := "False"; anorexia := "False"; spiders := "True";
  ascites := "False"; liver_big := "False"; spleen_palpable := "False";
  varices := "False"; histology := "False"; bilirubin := 1.0;
  alk_phos := 85; sgot := 25; albumin := 4.0; protime := 85;
  submit := true
|}.

Definition answer (sym : string) : string :=
  if String.eqb sym "Cough" then "Present" else "Absent".

End Sample.

(** ** Further readings of forms and traces *)

(** The registry key a call into a loaded object goes through. *)
Definition call_key (ev : event) : option string :=
  match ev with
  | Transform key _ | Predict key _ | PredictProba key _ => Some key
  | _ => None
  end.

(** The widget values [features] hands to [map_bool], in the order the
    list display evaluates them. *)
Definition tri_state_fields (f : hep_form) : list string :=
  [ steroid f; antivirals f; fatigue f; anorexia f; liver_big f;
    spleen_palpable f; spiders f; ascites f; varices f; histology f ].

(** The sample form with a steroid value the table does not hold. *)
Definition form_with_typo : hep_form := {|
  age := age Sample.form; sex := sex Sample.form; steroid := "Yes";
  antivirals := antivirals Sample.form; fatigue := fatigue Sample.form;
  anorexia := anorexia Sample.form; spiders := spiders Sample.form;
  ascites := ascites Sample.form; liver_big := liver_big Sample.form;
  spleen_palpable := spleen_palpable Sample.form;
  varices := varices Sample.form; histology := histology Sample.form;
  bilirubin := bilirubin Sample.form; alk_phos := alk_phos Sample.form;
  sgot := sgot Sample.form; albumin := albumin Sample.form;
  protime := protime Sample.form; submit := true
|}.

(** A classifier whose [predict] raises. *)
Definition broken_clf : handle := {|
  predict := λ _, Raise (Exception "X has 8 features, expected 9");
  predict_proba := predict_proba Sample.clf;
  transform := transform Sample.clf
|}.


(** A classifier whose [predict] returns an empty array. *)
Definition silent_clf : handle := {|
  predict := λ _, Ok [];
  predict_proba := predict_proba Sample.clf;
  transform := transform Sample.clf
|}.

(** A session on page [page] with every button pressed. *)
Definition session_on (page : string) : session := {|
  choice := page; hep := Sample.form; hiv_selected := ["Fever"; "Fatigue"];
  hiv_assess := true; tb_answer := Sample.answer; tb_run := true
|}.

(** The sample form before its submit button is pressed. *)
Definition form_not_submitted : hep_form := {|
  age := age Sample.form; sex := sex Sample.form;
  steroid := steroid Sample.form;
  antivirals := antivirals Sample.form; fatigue := fatigue Sample.form;
  anorexia := anorexia Sample.form; spiders := spiders Sample.form;
  ascites := ascites Sample.form; liver_big := liver_big Sample.form;
  spleen_palpable := spleen_palpable Sample.form;
  varices := varices Sample.form; histology := histology Sample.form;
  bilirubin := bilirubin Sample.form; alk_phos := alk_phos Sample.form;
  sgot := sgot Sample.form; albumin := albumin Sample.form;
  protime := protime Sample.form; submit := false
|}.

(** The options the select boxes of [hep_form] offer. *)
Definition tri_state_options : list string := [ "False"; "True"; "Unknown" ].
Definition binary_options : list string := [ "False"; "True" ].

(** A form whose select boxes each hold one of their options: Antivirals
    and Histology offer no "Unknown". *)
Definition selectable (f : hep_form) : Prop :=
  In (sex f) [ "male"; "female" ] ∧
  In (steroid f) tri_state_options ∧
  In (antivirals f) binary_options ∧
  In (fatigue f) tri_state_options ∧
  In (anorexia f) tri_state_options ∧
  In (spiders f) tri_state_options ∧
  In (ascites f) tri_state_options ∧
  In (liver_big f) tri_state_options ∧
  In (spleen_palpable f) tri_state_options ∧
  In (varices f) tri_state_options ∧
  In (histology f) binary_options.

(** ** Proof automation *)

(** Runs the monadic code as far as the known values allow. *)
Ltac mrun :=
  cbv [mbind M_bind mret M_ret result_bind result_ret emit lift put get
       setitem getitem try_except call_predict call_predict_proba
       call_transform is_none st_header st_error st_success st_warning
       trace store res app].

(** Runs, substituting the results recorded in the context. *)
Ltac mstep :=
  mrun;
  repeat match goal with
         | H : ?x = _ |- context [?x] => rewrite H; mrun
         end.

(** Case analysis on the four artifact loads of [load_models]. *)
Ltac load_cases ld :=
  unfold load_models, load;
  destruct (ld "models/hepatitis_model.pkl") as [hep_h|hep_e];
  destruct (ld "models/hiv_model.pkl") as [hiv_h|hiv_e];
  destruct (ld "models/vectorizer.pkl") as [vec_h|vec_e];
  destruct (ld "models/tb_predictor_model.pkl") as [tb_h|tb_e];
  mrun.

(** Case analysis on the next answer of a loaded object or index lookup. *)
Ltac mcase :=
  match goal with
  | |- context [transform ?v ?d] => destruct (transform v d) eqn:?
  | |- context [predict ?h ?x] => destruct (predict h x) eqn:?
  | |- context [predict_proba ?h ?x] => destruct (predict_proba h x) eqn:?
  | |- context [py_index ?l ?i] => destruct (py_index l i) eqn:?
  | |- context [Z.eqb ?p 1] => destruct (Z.eqb_spec p 1)
  end; mrun.

(** Case analysis on one run of the Hepatitis page. *)
Ltac hepatitis_cases f s :=
  destruct (s !! "hepatitis") as [[?h|]|] eqn:?;
  destruct (submit f) eqn:?;
  destruct (features f) as [?v|?e] eqn:?;
  unfold hepatitis_page; mstep; repeat mcase.

(** Case analysis on one run of the HIV page. *)
Ltac hiv_cases selected assess s :=
  destruct (s !! "hiv") as [[?h|]|] eqn:?;
  destruct (s !! "vectorizer") as [[?v|]|] eqn:?;
  destruct assess; destruct selected as [|?x ?l];
  unfold hiv_page; mstep; repeat mcase.

(** Case analysis on one run of the Tuberculosis page. *)
Ltac tb_cases run s :=
  destruct (s !! "tb") as [[?h|]|] eqn:?;
  destruct run;
  unfold tb_page; mstep; repeat mcase.

(** One tri-state field of [features]: mapped, or the KeyError it raises;
    [raise_inv] says what a raising lookup raises. *)
Ltac next_field f fld raise_inv :=
  let H := fresh "Hfield" in
  destruct (map_bool (fld f)) as [?code|?e] eqn:H; cbn [mbind result_bind];
  [ | right; pose proof (raise_inv _ _ H) as ->; exists (fld f);
      split; [unfold tri_state_fields; simpl; auto 12 |];
      split; [reflexivity | exact H] ].

(** ** Encoder theorems *)

(** C2: [map_bool] returns 0 for "False", 1 for "True" and -1 for
    "Unknown"; on every other input it raises KeyError (on that key) and
    returns no default value. *)
Theorem map_bool_spec :
  map_bool "False" = Ok 0 ∧
  map_bool "True" = Ok 1 ∧
  map_bool "Unknown" = Ok (-1) ∧
  ∀ val : string,
    val ≠ "False" → val ≠ "True" → val ≠ "Unknown" →
    map_bool val = Raise (KeyError val).
Proof.
  repeat split; try reflexivity.
  intros val HF HT HU. unfold map_bool, map_bool_table.
  rewrite !lookup_insert_ne, lookup_empty by congruence.
  reflexivity.
Qed.

Lemma map_bool_spec_witness : map_bool "Maybe" = Raise (KeyError "Maybe").
Proof.
  apply (proj2 (proj2 (proj2 map_bool_spec)) "Maybe"); discriminate.
Defined.

(** C3: [map_sex] is total; it returns 0 on exactly "male" and 1 on every
    other string ("female", typos, the empty string, ...). *)
Theorem map_sex_spec :
  map_sex "male" = 0 ∧
  map_sex "female" = 1 ∧
  (∀ val : string, val ≠ "male" → map_sex val = 1) ∧
  (∀ val : string, map_sex val = 0 → val = "male").
Proof.
  split; [reflexivity|]. split; [reflexivity|]. split.
  - intros val Hne. unfold map_sex.
    destruct (String.eqb_spec val "male"); [contradiction | reflexivity].
  - intros val. unfold map_sex.
    destruct (String.eqb_spec val "male"); [trivial | discriminate].
Qed.

Lemma map_sex_spec_witness : map_sex "mael" = 1.
Proof.
  apply (proj1 (proj2 (proj2 map_sex_spec)) "mael"); discriminate.
Defined.

(** ** Indexing *)

(** An index from 0 to the length reads that position. *)
Lemma py_index_in_range {A} (l : list A) (i : Z) (x : A) :
  0 ≤ i < Z.of_nat (length l) →
  l !! Z.to_nat i = Some x →
  py_index l i = Ok x.
Proof.
  intros Hrange Hx. unfold py_index.
  destruct (Z.ltb_spec i 0) as [Hneg|_]; [lia|].
  destruct (Z.leb_spec 0 i) as [_|Hneg]; [|lia].
  destruct (Z.ltb_spec i (Z.of_nat (length l))) as [_|Hbig]; [|lia].
  simpl. rewrite Hx. reflexivity.
Qed.

(** A negative index counts from the end. *)
Lemma py_index_negative {A} (l : list A) (i : Z) :
  - Z.of_nat (length l) ≤ i < 0 →
  py_index l i = py_index l (i + Z.of_nat (length l)).
Proof.
  intros Hrange. unfold py_index.
  destruct (Z.ltb_spec i 0) as [_|Hpos]; [|lia].
  destruct (Z.ltb_spec (i + Z.of_nat (length l)) 0) as [Hneg|_]; [lia|].
  reflexivity.
Qed.

(** Any other index raises IndexError. *)
Lemma py_index_outside {A} (l : list A) (i : Z) :
  i < - Z.of_nat (length l) ∨ Z.of_nat (length l) ≤ i →
  py_index l i = Raise IndexError.
Proof.
  intros Hout. unfold py_index.
  destruct (Z.ltb_spec i 0) as [Hneg|Hpos].
  - destruct (Z.leb_spec 0 (i + Z.of_nat (length l))) as [Hok|_]; [lia|].
    reflexivity.
  - destruct (Z.leb_spec 0 i) as [_|Hneg]; [|lia].
    destruct (Z.ltb_spec i (Z.of_nat (length l))) as [Hsmall|_]; [lia|].
    reflexivity.
Qed.

(** ** Model loading theorems *)

(** C4, as the code has it: [load_models] never raises and returns the
    dictionary it built, whose keys are exactly hepatitis, hiv, vectorizer
    and tb, each bound to a handle or to None.  The Hepatitis, HIV-model
    and TB loads are always attempted; the vectorizer load is attempted
    exactly when the HIV-model load succeeded.  A failure inside a try
    block is caught there: the entries of that block become None (hiv and
    vectorizer together), one diagnostic is displayed, and the later
    blocks still run. *)
Theorem load_models_total (ld : string → result handle) (s0 : registry) :
  let o := load_models ld s0 in
  let hep := ld "models/hepatitis_model.pkl" in
  let hiv := ld "models/hiv_model.pkl" in
  let vec := ld "models/vectorizer.pkl" in
  let tb := ld "models/tb_predictor_model.pkl" in
  res o = Ok (store o) ∧
  dom (store o) = ({[ "hepatitis"; "hiv"; "vectorizer"; "tb" ]} : gset string) ∧
  loads (trace o) =
    ([ "models/hepatitis_model.pkl"; "models/hiv_model.pkl" ] ++
     (if is_ok hiv then [ "models/vectorizer.pkl" ] else []) ++
     [ "models/tb_predictor_model.pkl" ])%list ∧
  store o !! "hepatitis" = Some (to_entry hep) ∧
  store o !! "hiv" = Some (if is_ok hiv && is_ok vec then to_entry hiv else None) ∧
  store o !! "vectorizer" = Some (if is_ok hiv && is_ok vec then to_entry vec else None) ∧
  store o !! "tb" = Some (to_entry tb) ∧
  shown (trace o) =
    (diagnostic "⚠️ Error loading Hepatitis model: " hep ++
     diagnostic "⚠️ Error loading HIV model/vectorizer: " (hiv ≫= λ _, vec) ++
     diagnostic "⚠️ Error loading TB model: " tb)%list.
Proof.
  load_cases ld.
  all: split; [reflexivity|].
  all: split; [rewrite ?dom_insert_L, dom_empty_L; set_solver|].
  all: repeat split; reflexivity.
Qed.

(** C4, as stated, fails: when only the HIV model file cannot be loaded,
    the vectorizer load, which would have succeeded, is never attempted. *)
Lemma load_models_skips_vectorizer :
  is_ok (Sample.disk_without_hiv "models/vectorizer.pkl") = true ∧
  loads (trace (load_models Sample.disk_without_hiv ∅)) =
    [ "models/hepatitis_model.pkl"; "models/hiv_model.pkl";
      "models/tb_predictor_model.pkl" ] ∧
  "models/vectorizer.pkl" ∉
    loads (trace (load_models Sample.disk_without_hiv ∅)).
Proof.
  split; [reflexivity|]. split; [reflexivity|].
  intros Hin. apply list_elem_of_In in Hin. vm_compute in Hin.
  intuition discriminate.
Qed.

(** Sequencing: the trace of [m ≫= f] when [m] returns. *)
Lemma trace_bind {A B} (m : M A) (f : A → M B) (s : registry) (a : A) :
  res (m s) = Ok a →
  trace ((m ≫= f) s) = (trace (m s) ++ trace (f a (store (m s))))%list.
Proof.
  intros Hres. unfold mbind, M_bind.
  destruct (m s) as [t s' r]. simpl in Hres. subst r. simpl.
  destruct (f a s') as [t' s'' r']. reflexivity.
Qed.

Lemma model_calls_app (t t' : list event) :
  model_calls (t ++ t') = (model_calls t ++ model_calls t')%list.
Proof. apply List.filter_app. Qed.

(** Loading calls no method of a loaded object. *)
Lemma load_models_no_model_calls (ld : string → result handle) (s0 : registry) :
  model_calls (trace (load_models ld s0)) = [].
Proof. load_cases ld; reflexivity. Qed.

Lemma load_models_returns (ld : string → result handle) (s0 : registry) :
  res (load_models ld s0) = Ok (store (load_models ld s0)).
Proof. load_cases ld; reflexivity. Qed.

(** The two HIV entries after loading: both loaded objects, or both None. *)
Lemma load_models_hiv_entries (ld : string → result handle) (s0 : registry) :
  let m := store (load_models ld s0) in
  let hiv := ld "models/hiv_model.pkl" in
  let vec := ld "models/vectorizer.pkl" in
  (∃ h v, hiv = Ok h ∧ vec = Ok v ∧
          m !! "hiv" = Some (Some h) ∧ m !! "vectorizer" = Some (Some v)) ∨
  ((is_ok hiv = false ∨ is_ok vec = false) ∧
   m !! "hiv" = Some None ∧ m !! "vectorizer" = Some None).
Proof.
  load_cases ld.
  all: first
    [ left; do 2 eexists; repeat split; reflexivity
    | right; split; [first [left; reflexivity | right; reflexivity]|];
      split; reflexivity ].
Qed.

(** The HIV page calls the vectorizer or the model only if both entries
    hold an object. *)
Lemma hiv_page_calls_need_pair
    (selected : list string) (assess : bool) (s : registry) :
  model_calls (trace (hiv_page selected assess s)) ≠ [] →
  ∃ h v, s !! "hiv" = Some (Some h) ∧ s !! "vectorizer" = Some (Some v).
Proof.
  destruct (s !! "hiv") as [[h|]|] eqn:Hh;
    destruct (s !! "vectorizer") as [[v|]|] eqn:Hv; eauto.
  all: unfold hiv_page; mstep.
  all: intros Hcalls; exfalso; apply Hcalls; reflexivity.
Qed.

(** C5: after [load_models] the hiv and vectorizer entries are either both
    the loaded objects or both None, the latter as soon as one of the two
    loads fails; the HIV page calls the vectorizer or the model only on a
    registry where both are present, and so, in a run of the whole script,
    only when both loads succeeded. *)
Theorem hiv_model_and_vectorizer_paired
    (ld : string → result handle) (s0 s : registry)
    (selected : list string) (assess : bool) (u : session) :
  let m := store (load_models ld s0) in
  let hiv := ld "models/hiv_model.pkl" in
  let vec := ld "models/vectorizer.pkl" in
  ((∃ h v, hiv = Ok h ∧ vec = Ok v ∧
           m !! "hiv" = Some (Some h) ∧ m !! "vectorizer" = Some (Some v)) ∨
   ((is_ok hiv = false ∨ is_ok vec = false) ∧
    m !! "hiv" = Some None ∧ m !! "vectorizer" = Some None)) ∧
  (model_calls (trace (hiv_page selected assess s)) ≠ [] →
   ∃ h v, s !! "hiv" = Some (Some h) ∧ s !! "vectorizer" = Some (Some v)) ∧
  (choice u = "HIV" →
   model_calls (trace (main ld u s0)) ≠ [] →
   is_ok hiv = true ∧ is_ok vec = true).
Proof.
  intros m hiv vec. split; [apply load_models_hiv_entries|].
  split; [apply hiv_page_calls_need_pair|].
  intros Hchoice Hcalls. unfold main in Hcalls.
  rewrite (trace_bind _ _ _ _ (load_models_returns ld s0)) in Hcalls.
  rewrite model_calls_app, load_models_no_model_calls in Hcalls.
  rewrite Hchoice in Hcalls. simpl in Hcalls.
  apply hiv_page_calls_need_pair in Hcalls as (h & v & Hh & Hv).
  destruct (load_models_hiv_entries ld s0) as
    [(h' & v' & Hhiv & Hvec & _) | (_ & Hnone & _)].
  - fold hiv in Hhiv. fold vec in Hvec. rewrite Hhiv, Hvec. split; reflexivity.
  - rewrite Hnone in Hh. discriminate.
Qed.

(** On the sample registry a click with one symptom reaches the model, and
    so does a run of the whole script on the sample disk: both entries are
    present, both loads succeeded. *)
Lemma hiv_model_and_vectorizer_paired_witness :
  (∃ h v, Sample.models_of Sample.clf !! "hiv" = Some (Some h) ∧
          Sample.models_of Sample.clf !! "vectorizer" = Some (Some v)) ∧
  is_ok (Sample.disk "models/hiv_model.pkl") = true ∧
  is_ok (Sample.disk "models/vectorizer.pkl") = true.
Proof.
  pose (u := {| choice := "HIV"; hep := Sample.form;
                hiv_selected := ["Fever"]; hiv_assess := true;
                tb_answer := Sample.answer; tb_run := false |}).
  pose proof (hiv_model_and_vectorizer_paired
                Sample.disk ∅ (Sample.models_of Sample.clf) ["Fever"] true u)
    as (_ & Hpage & Hmain).
  split.
  - apply Hpage. vm_compute. discriminate.
  - apply Hmain; [reflexivity | vm_compute; discriminate].
Defined.

(** ** HIV page theorems *)

(** C6: with model and vectorizer present, a click on an empty selection
    displays the warning and nothing else happens: no vectorizer call, no
    model call.  On any registry an empty selection leads to no call, and
    a call is made only after a click on a non-empty selection. *)
Theorem hiv_empty_selection_rejected
    (s : registry) (h v : handle) (selected : list string) (assess : bool) :
  (s !! "hiv" = Some (Some h) → s !! "vectorizer" = Some (Some v) →
   hiv_page [] true s =
     {| trace := [ St StHeader (Text "🧪 HIV Risk Assessment");
                   St StWarning (Text "⚠️ Please select symptoms") ];
        store := s; res := Ok tt |}) ∧
  model_calls (trace (hiv_page [] assess s)) = [] ∧
  (model_calls (trace (hiv_page selected assess s)) ≠ [] →
   selected ≠ [] ∧ assess = true).
Proof.
  split; [|split].
  - intros Hh Hv. unfold hiv_page. mstep. reflexivity.
  - destruct (s !! "hiv") as [[h'|]|] eqn:Hh;
      destruct (s !! "vectorizer") as [[v'|]|] eqn:Hv;
      destruct assess; unfold hiv_page; mstep; reflexivity.
  - destruct (s !! "hiv") as [[h'|]|] eqn:Hh;
      destruct (s !! "vectorizer") as [[v'|]|] eqn:Hv;
      destruct assess; destruct selected as [|x l];
      unfold hiv_page; mstep.
    all: try (intros Hcalls; exfalso; apply Hcalls; reflexivity).
    intros _. split; [discriminate | reflexivity].
Qed.

Lemma hiv_empty_selection_rejected_witness :
  hiv_page [] true (Sample.models_of Sample.clf) =
    {| trace := [ St StHeader (Text "🧪 HIV Risk Assessment");
                  St StWarning (Text "⚠️ Please select symptoms") ];
       store := Sample.models_of Sample.clf; res := Ok tt |} ∧
  ["Fever"] ≠ [] ∧ true = true.
Proof.
  pose proof (hiv_empty_selection_rejected
                (Sample.models_of Sample.clf) Sample.clf Sample.vectorizer
                ["Fever"] true) as (Hwarn & _ & Hcalls).
  split.
  - apply Hwarn; reflexivity.
  - apply Hcalls. vm_compute. discriminate.
Defined.

(** C7: with model and vectorizer present, a click on a non-empty
    selection calls the vectorizer exactly once, on the one-element list
    holding the selected names joined by ", ", whatever the vectorizer and
    the model answer; the selection Fever, Fatigue gives "Fever, Fatigue". *)
Theorem hiv_vectorizer_input
    (s : registry) (h v : handle) (selected : list string) :
  s !! "hiv" = Some (Some h) → s !! "vectorizer" = Some (Some v) →
  selected ≠ [] →
  vectorizer_inputs (trace (hiv_page selected true s)) =
    [[String.concat ", " selected]] ∧
  hd_error (model_calls (trace (hiv_page selected true s))) =
    Some (Transform "vectorizer" [String.concat ", " selected]) ∧
  String.concat ", " ["Fever"; "Fatigue"] = "Fever, Fatigue".
Proof.
  intros Hh Hv Hsel. destruct selected as [|x l]; [contradiction|].
  unfold hiv_page. mstep.
  repeat mcase; repeat split; reflexivity.
Qed.

Lemma hiv_vectorizer_input_witness :
  vectorizer_inputs
    (trace (hiv_page ["Fever"; "Fatigue"] true (Sample.models_of Sample.clf))) =
    [["Fever, Fatigue"]].
Proof.
  apply (hiv_vectorizer_input (Sample.models_of Sample.clf)
           Sample.clf Sample.vectorizer ["Fever"; "Fatigue"]);
    [reflexivity | reflexivity | discriminate].
Defined.

(** ** Confidence and risk messages *)

(** The message of the HIV page for label [pred] and confidence [c]. *)
Lemma hiv_page_run
    (s : registry) (h v : handle) (selected : list string) (vec : matrix)
    (preds : list Z) (pred : Z) (proba : list (list float))
    (row : list float) (c : float) :
  s !! "hiv" = Some (Some h) → s !! "vectorizer" = Some (Some v) →
  selected ≠ [] →
  transform v [String.concat ", " selected] = Ok vec →
  predict h vec = Ok preds → py_index preds 0 = Ok pred →
  predict_proba h vec = Ok proba → py_index proba 0 = Ok row →
  py_index row pred = Ok c →
  hiv_page selected true s =
    {| trace :=
         [ St StHeader (Text "🧪 HIV Risk Assessment");
           Transform "vectorizer" [String.concat ", " selected];
           Predict "hiv" vec;
           PredictProba "hiv" vec;
           if pred =? 1
           then St StError (Percent "🚨 High Risk (Confidence: " c ")")
           else St StSuccess (Percent "✅ Low Risk (Confidence: " c ")") ];
       store := s; res := Ok tt |}.
Proof.
  intros Hh Hv Hsel Htransform Hpredict Hpred Hproba Hrow Hc.
  destruct selected as [|x l]; [contradiction|].
  unfold hiv_page. mstep. destruct (pred =? 1); reflexivity.
Qed.

(** The message of the TB page for label [pred] and confidence [c]. *)
Lemma tb_page_run
    (s : registry) (h : handle) (answer : string → string)
    (preds : list Z) (pred : Z) (proba : list (list float))
    (row : list float) (c : float) :
  s !! "tb" = Some (Some h) →
  predict h [tb_data answer] = Ok preds → py_index preds 0 = Ok pred →
  predict_proba h [tb_data answer] = Ok proba → py_index proba 0 = Ok row →
  py_index row pred = Ok c →
  tb_page answer true s =
    {| trace :=
         [ St StHeader (Text "🫁 Tuberculosis Screening");
           Predict "tb" [tb_data answer];
           PredictProba "tb" [tb_data answer];
           if pred =? 1
           then St StError (Percent "🚨 High TB Risk (Confidence: " c ")")
           else St StSuccess (Percent "✅ Low TB Risk (Confidence: " c ")") ];
       store := s; res := Ok tt |}.
Proof.
  intros Hh Hpredict Hpred Hproba Hrow Hc.
  unfold tb_page. mstep. destruct (pred =? 1); reflexivity.
Qed.

(** Every confidence the HIV page displays was read from the model's
    probability row at the predicted label. *)
Lemma hiv_page_confidence_source
    (s : registry) (selected : list string) (assess : bool) (c : float) :
  In c (confidences (trace (hiv_page selected assess s))) →
  ∃ h v vec preds pred proba row,
    s !! "hiv" = Some (Some h) ∧ s !! "vectorizer" = Some (Some v) ∧
    transform v [String.concat ", " selected] = Ok vec ∧
    predict h vec = Ok preds ∧ py_index preds 0 = Ok pred ∧
    predict_proba h vec = Ok proba ∧ py_index proba 0 = Ok row ∧
    py_index row pred = Ok c.
Proof.
  destruct (s !! "hiv") as [[h|]|] eqn:Hh;
    destruct (s !! "vectorizer") as [[v|]|] eqn:Hv;
    destruct assess; destruct selected as [|x l];
    unfold hiv_page; mstep; try (simpl; tauto).
  repeat mcase; simpl; try tauto.
  all: intros [<-|[]]; exists h, v; repeat eexists; eassumption.
Qed.

(** Every confidence the TB page displays was read from the model's
    probability row at the predicted label. *)
Lemma tb_page_confidence_source
    (s : registry) (answer : string → string) (run : bool) (c : float) :
  In c (confidences (trace (tb_page answer run s))) →
  ∃ h preds pred proba row,
    s !! "tb" = Some (Some h) ∧
    predict h [tb_data answer] = Ok preds ∧ py_index preds 0 = Ok pred ∧
    predict_proba h [tb_data answer] = Ok proba ∧
    py_index proba 0 = Ok row ∧ py_index row pred = Ok c.
Proof.
  destruct (s !! "tb") as [[h|]|] eqn:Hh; destruct run;
    unfold tb_page; mstep; try (simpl; tauto).
  repeat mcase; simpl; try tauto.
  all: intros [<-|[]]; exists h; repeat eexists; eassumption.
Qed.

Lemma quarter_is_not_three_quarters : 0.25%float ≠ 0.75%float.
Proof.
  intros Heq.
  assert (Hlt : PrimFloat.ltb 0.25 0.5 = PrimFloat.ltb 0.75 0.5)
    by (rewrite Heq; reflexivity).
  vm_compute in Hlt. discriminate.
Qed.

(** C8: on the HIV and on the TB page the confidence displayed is
    [predict_proba(X)[0][pred]] with [pred = predict(X)[0]]: whenever both
    methods answer and the row has an entry at index [pred], that entry is
    the one confidence displayed, and every confidence displayed arises
    this way.  It is neither the maximum of the row nor the entry of class
    1: the sample classifier predicts 0 with row [0.25, 0.75], and 0.25 is
    displayed. *)
Theorem confidence_is_probability_at_predicted_label :
  (∀ (s : registry) (h v : handle) (selected : list string) (vec : matrix)
     (preds : list Z) (pred : Z) (proba : list (list float))
     (row : list float) (c : float),
     s !! "hiv" = Some (Some h) → s !! "vectorizer" = Some (Some v) →
     selected ≠ [] →
     transform v [String.concat ", " selected] = Ok vec →
     predict h vec = Ok preds → py_index preds 0 = Ok pred →
     predict_proba h vec = Ok proba → py_index proba 0 = Ok row →
     py_index row pred = Ok c →
     confidences (trace (hiv_page selected true s)) = [c]) ∧
  (∀ (s : registry) (h : handle) (answer : string → string)
     (preds : list Z) (pred : Z) (proba : list (list float))
     (row : list float) (c : float),
     s !! "tb" = Some (Some h) →
     predict h [tb_data answer] = Ok preds → py_index preds 0 = Ok pred →
     predict_proba h [tb_data answer] = Ok proba →
     py_index proba 0 = Ok row → py_index row pred = Ok c →
     confidences (trace (tb_page answer true s)) = [c]) ∧
  (∀ (s : registry) (selected : list string) (assess : bool) (c : float),
     In c (confidences (trace (hiv_page selected assess s))) →
     ∃ h v vec preds pred proba row,
       s !! "hiv" = Some (Some h) ∧ s !! "vectorizer" = Some (Some v) ∧
       transform v [String.concat ", " selected] = Ok vec ∧
       predict h vec = Ok preds ∧ py_index preds 0 = Ok pred ∧
       predict_proba h vec = Ok proba ∧ py_index proba 0 = Ok row ∧
       py_index row pred = Ok c) ∧
  (∀ (s : registry) (answer : string → string) (run : bool) (c : float),
     In c (confidences (trace (tb_page answer run s))) →
     ∃ h preds pred proba row,
       s !! "tb" = Some (Some h) ∧
       predict h [tb_data answer] = Ok preds ∧ py_index preds 0 = Ok pred ∧
       predict_proba h [tb_data answer] = Ok proba ∧
       py_index proba 0 = Ok row ∧ py_index row pred = Ok c) ∧
  (let row := [0.25%float; 0.75%float] in
   confidences (trace (hiv_page ["Fever"] true (Sample.models_of Sample.clf)))
     = [0.25%float] ∧
   confidences (trace (tb_page Sample.answer true (Sample.models_of Sample.clf)))
     = [0.25%float] ∧
   predict_proba Sample.clf [tb_data Sample.answer] = Ok [row] ∧
   row_max row = 0.75%float ∧
   py_index row 1 = Ok 0.75%float ∧
   0.25%float ≠ 0.75%float).
Proof.
  split; [|split; [|split; [|split]]].
  - intros s h v selected vec preds pred proba row c
      Hh Hv Hsel Htransform Hpredict Hpred Hproba Hrow Hc.
    rewrite (hiv_page_run s h v selected vec preds pred proba row c)
      by assumption.
    simpl. destruct (pred =? 1); reflexivity.
  - intros s h answer preds pred proba row c
      Hh Hpredict Hpred Hproba Hrow Hc.
    rewrite (tb_page_run s h answer preds pred proba row c) by assumption.
    simpl. destruct (pred =? 1); reflexivity.
  - apply hiv_page_confidence_source.
  - apply tb_page_confidence_source.
  - repeat split; try reflexivity. apply quarter_is_not_three_quarters.
Qed.

Lemma confidence_is_probability_at_predicted_label_witness :
  confidences
    (trace (hiv_page ["Fever"] true (Sample.models_of Sample.clf3))) =
    [0.5%float] ∧
  confidences
    (trace (tb_page Sample.answer true (Sample.models_of Sample.clf3))) =
    [0.5%float].
Proof.
  pose proof confidence_is_probability_at_predicted_label
    as (Hhiv & Htb & _).
  split.
  - apply (Hhiv (Sample.models_of Sample.clf3) Sample.clf3 Sample.vectorizer
             ["Fever"] [[PyInt 1; PyInt 0]] [2] 2
             [[0.25; 0.25; 0.5]%float] [0.25; 0.25; 0.5]%float);
      first [reflexivity | discriminate].
  - apply (Htb (Sample.models_of Sample.clf3) Sample.clf3 Sample.answer
             [2] 2 [[0.25; 0.25; 0.5]%float] [0.25; 0.25; 0.5]%float);
      reflexivity.
Defined.




(** A label outside the probability row: the lookup raises IndexError and
    the page displays no result. *)
Lemma label_outside_row :
  let handle2 := {| predict := λ _, Ok [2];
                    predict_proba := predict_proba Sample.clf;
                    transform := transform Sample.clf |} in
  res (tb_page Sample.answer true (Sample.models_of handle2)) =
    Raise IndexError ∧
  displayed (trace (tb_page Sample.answer true (Sample.models_of handle2))) =
    [].
Proof. split; reflexivity. Qed.

(** ** Hepatitis page theorems *)

(** The Hepatitis page never asks for probabilities. *)
Lemma hepatitis_page_no_predict_proba (f : hep_form) (s : registry) :
  (∀ key X, ¬ In (PredictProba key X) (trace (hepatitis_page f s))) ∧
  confidences (trace (hepatitis_page f s)) = [].
Proof.
  destruct (s !! "hepatitis") as [[h|]|] eqn:Hh;
    destruct (submit f) eqn:Hsubmit;
    destruct (features f) as [v|e] eqn:Hfeatures;
    unfold hepatitis_page; mstep; repeat mcase.
  all: split; [intros key X; simpl; intuition discriminate | reflexivity].
Qed.

(** C9: with the hepatitis entry None the page displays the "not found"
    error and calls nothing.  With a model present and the form submitted,
    the one call is [predict] on the feature vector; label 1 displays
    "Favorable Prognosis" as a success, every other label displays
    "Concerning Prognosis" as an error.  In no case is [predict_proba]
    called or a confidence displayed. *)
Theorem hepatitis_prognosis (s : registry) (f : hep_form) :
  (s !! "hepatitis" = Some None →
   hepatitis_page f s =
     {| trace := [ St StHeader (Text "🫀 Hepatitis Prognosis");
                   St StError (Text "⚠️ Hepatitis model not found.") ];
        store := s; res := Ok tt |}) ∧
  (∀ (h : handle) (v : list num) (preds : list Z) (pred : Z),
     s !! "hepatitis" = Some (Some h) → submit f = true →
     features f = Ok v →
     predict h [v] = Ok preds → py_index preds 0 = Ok pred →
     model_calls (trace (hepatitis_page f s)) = [Predict "hepatitis" [v]] ∧
     (pred = 1 →
      displayed (trace (hepatitis_page f s)) =
        [(StSuccess, Text "✅ Favorable Prognosis")]) ∧
     (pred ≠ 1 →
      displayed (trace (hepatitis_page f s)) =
        [(StError, Text "⚠️ Concerning Prognosis")])) ∧
  (∀ key X, ¬ In (PredictProba key X) (trace (hepatitis_page f s))) ∧
  confidences (trace (hepatitis_page f s)) = [].
Proof.
  split; [|split].
  - intros Hh. unfold hepatitis_page. mstep. reflexivity.
  - intros h v preds pred Hh Hsubmit Hfeatures Hpredict Hpred.
    unfold hepatitis_page. mstep.
    destruct (Z.eqb_spec pred 1) as [Heq|Hne]; simpl.
    + split; [reflexivity|]. split; [reflexivity | contradiction].
    + split; [reflexivity|]. split; [contradiction | reflexivity].
  - apply hepatitis_page_no_predict_proba.
Qed.

Lemma hepatitis_prognosis_witness :
  hepatitis_page Sample.form (<["hepatitis" := None]> ∅) =
    {| trace := [ St StHeader (Text "🫀 Hepatitis Prognosis");
                  St StError (Text "⚠️ Hepatitis model not found.") ];
       store := <["hepatitis" := None]> ∅; res := Ok tt |} ∧
  displayed
    (trace (hepatitis_page Sample.form (Sample.models_of Sample.clf_pos))) =
    [(StSuccess, Text "✅ Favorable Prognosis")] ∧
  displayed
    (trace (hepatitis_page Sample.form (Sample.models_of Sample.clf3))) =
    [(StError, Text "⚠️ Concerning Prognosis")].
Proof.
  split; [|split].
  - apply (proj1 (hepatitis_prognosis (<["hepatitis" := None]> ∅) Sample.form)).
    reflexivity.
  - pose proof (proj1 (proj2 (hepatitis_prognosis
                  (Sample.models_of Sample.clf_pos) Sample.form))) as Hrun.
    destruct (Hrun Sample.clf_pos
               [ PyInt 40; PyInt 0; PyInt 0; PyInt 0; PyInt 0; PyInt 0;
                 PyInt 0; PyInt 0; PyInt 1; PyInt 0; PyInt 0; PyInt 0;
                 PyFloat 1; PyInt 85; PyInt 25; PyFloat 4; PyInt 85 ]
               [1] 1 eq_refl eq_refl eq_refl eq_refl eq_refl)
      as (_ & Hone & _).
    apply Hone. reflexivity.
  - pose proof (proj1 (proj2 (hepatitis_prognosis
                  (Sample.models_of Sample.clf3) Sample.form))) as Hrun.
    destruct (Hrun Sample.clf3
               [ PyInt 40; PyInt 0; PyInt 0; PyInt 0; PyInt 0; PyInt 0;
                 PyInt 0; PyInt 0; PyInt 1; PyInt 0; PyInt 0; PyInt 0;
                 PyFloat 1; PyInt 85; PyInt 25; PyFloat 4; PyInt 85 ]
               [2] 2 eq_refl eq_refl eq_refl eq_refl eq_refl)
      as (_ & _ & Hother).
    apply Hother. discriminate.
Defined.

(** C1, as the code has it: for every submission whose tri-state fields
    are mapped, the one vector passed to [predict] has 17 entries in the
    order age, sex, steroid, antivirals, fatigue, anorexia, liver-enlarged,
    spleen-palpable, spiders, ascites, varices, histology, bilirubin,
    alkaline phosphatase, SGOT, albumin, prothrombin time, each the
    encoding of that field. *)
Theorem hepatitis_vector_order
    (s : registry) (h : handle) (f : hep_form)
    (steroid' antivirals' fatigue' anorexia' liver_big' spleen_palpable'
     spiders' ascites' varices' histology' : Z) :
  s !! "hepatitis" = Some (Some h) → submit f = true →
  map_bool (steroid f) = Ok steroid' →
  map_bool (antivirals f) = Ok antivirals' →
  map_bool (fatigue f) = Ok fatigue' →
  map_bool (anorexia f) = Ok anorexia' →
  map_bool (liver_big f) = Ok liver_big' →
  map_bool (spleen_palpable f) = Ok spleen_palpable' →
  map_bool (spiders f) = Ok spiders' →
  map_bool (ascites f) = Ok ascites' →
  map_bool (varices f) = Ok varices' →
  map_bool (histology f) = Ok histology' →
  model_calls (trace (hepatitis_page f s)) =
    [ Predict "hepatitis"
        [[ PyInt (age f); PyInt (map_sex (sex f)); PyInt steroid';
           PyInt antivirals'; PyInt fatigue'; PyInt anorexia';
           PyInt liver_big'; PyInt spleen_palpable'; PyInt spiders';
           PyInt ascites'; PyInt varices'; PyInt histology';
           PyFloat (bilirubin f); PyInt (alk_phos f); PyInt (sgot f);
           PyFloat (albumin f); PyInt (protime f) ]] ].
Proof.
  intros Hh Hsubmit Hsteroid Hantivirals Hfatigue Hanorexia Hliver Hspleen
    Hspiders Hascites Hvarices Hhistology.
  unfold hepatitis_page, features. mstep.
  repeat mcase; reflexivity.
Qed.

Lemma hepatitis_vector_order_witness :
  model_calls
    (trace (hepatitis_page Sample.form (Sample.models_of Sample.clf))) =
    [ Predict "hepatitis"
        [[ PyInt 40; PyInt 0; PyInt 0; PyInt 0; PyInt 0; PyInt 0; PyInt 0;
           PyInt 0; PyInt 1; PyInt 0; PyInt 0; PyInt 0; PyFloat 1;
           PyInt 85; PyInt 25; PyFloat 4; PyInt 85 ]] ].
Proof.
  apply (hepatitis_vector_order (Sample.models_of Sample.clf) Sample.clf
           Sample.form 0 0 0 0 0 0 1 0 0 0); reflexivity.
Defined.

(** C1, as stated, fails: with spiders "True" and liver-enlarged "False"
    the seventh entry of the vector passed to [predict] is 0, the encoding
    of liver-enlarged, where the listed order has 1, the encoding of
    spiders; the ninth entry is 1 where the listed order has 0. *)
Lemma hepatitis_vector_not_in_listed_order :
  model_calls
    (trace (hepatitis_page Sample.form (Sample.models_of Sample.clf))) =
    [ Predict "hepatitis"
        [[ PyInt 40; PyInt 0; PyInt 0; PyInt 0; PyInt 0; PyInt 0; PyInt 0;
           PyInt 0; PyInt 1; PyInt 0; PyInt 0; PyInt 0; PyFloat 1;
           PyInt 85; PyInt 25; PyFloat 4; PyInt 85 ]] ] ∧
  features_in_listed_order Sample.form =
    Ok [ PyInt 40; PyInt 0; PyInt 0; PyInt 0; PyInt 0; PyInt 0; PyInt 1;
         PyInt 0; PyInt 0; PyInt 0; PyInt 0; PyInt 0; PyFloat 1;
         PyInt 85; PyInt 25; PyFloat 4; PyInt 85 ] ∧
  map_bool (spiders Sample.form) = Ok 1 ∧
  map_bool (liver_big Sample.form) = Ok 0 ∧
  features Sample.form ≠ features_in_listed_order Sample.form.
Proof.
  repeat split; try reflexivity.
  vm_compute. intros Heq. discriminate.
Qed.

(** ** Further properties of the encoders *)

(** What [map_bool] raises is the KeyError of its argument. *)
Lemma map_bool_raise (val : string) (e : exn) :
  map_bool val = Raise e → e = KeyError val.
Proof.
  unfold map_bool. destruct (map_bool_table !! val); [discriminate|].
  intros Heq. injection Heq as <-. reflexivity.
Qed.

(** The value behind a code of [map_bool]. *)
Lemma map_bool_ok (val : string) (code : Z) :
  map_bool val = Ok code →
  (val = "False" ∧ code = 0) ∨ (val = "True" ∧ code = 1) ∨
  (val = "Unknown" ∧ code = -1).
Proof.
  unfold map_bool, map_bool_table. intros Hval.
  destruct (decide (val = "False")) as [->|HF]; [left|].
  { vm_compute in Hval. injection Hval as <-. split; reflexivity. }
  destruct (decide (val = "True")) as [->|HT]; [right; left|].
  { vm_compute in Hval. injection Hval as <-. split; reflexivity. }
  destruct (decide (val = "Unknown")) as [->|HU]; [right; right|].
  { vm_compute in Hval. injection Hval as <-. split; reflexivity. }
  rewrite !lookup_insert_ne, lookup_empty in Hval by congruence.
  discriminate.
Qed.

(** X1: the codes of [map_bool] lie in -1, 0, 1 and determine the value
    they encode: two values with the same code are the same string. *)
Theorem map_bool_injective (val val' : string) (code : Z) :
  map_bool val = Ok code → map_bool val' = Ok code →
  val = val' ∧ (code = -1 ∨ code = 0 ∨ code = 1).
Proof.
  intros H1 H2.
  apply map_bool_ok in H1 as [[-> ->]|[[-> ->]|[-> ->]]];
    apply map_bool_ok in H2 as [[-> H]|[[-> H]|[-> H]]];
    try discriminate; split; auto.
Qed.

Lemma map_bool_injective_witness :
  "Unknown" = "Unknown" ∧ (-1 = -1 ∨ -1 = 0 ∨ -1 = 1).
Proof.
  apply (map_bool_injective "Unknown" "Unknown" (-1)); reflexivity.
Defined.

(** ** Further properties of the Tuberculosis vector *)

(** X2: the TB vector has one entry per symptom of the vocabulary, in its
    order; the entry is 1 when the select box of that symptom holds
    exactly "Present" and 0 for every other value. *)
Theorem tb_data_encoding (answer : string → string) :
  length (tb_data answer) = 8%nat ∧
  (∀ (i : nat) (sym : string),
     tb_symptoms !! i = Some sym →
     (answer sym = "Present" → tb_data answer !! i = Some (PyInt 1)) ∧
     (answer sym ≠ "Present" → tb_data answer !! i = Some (PyInt 0))).
Proof.
  split; [reflexivity|].
  intros i sym Hsym. unfold tb_data, tb_symptoms in *.
  do 8 (destruct i as [|i];
        [ injection Hsym as <-; simpl;
          match goal with
          | |- context [String.eqb ?a "Present"] =>
              destruct (String.eqb_spec a "Present")
          end;
          split; intros; first [reflexivity | contradiction]
        | ]).
  discriminate.
Qed.

Lemma tb_data_encoding_witness :
  tb_data Sample.answer !! 1%nat = Some (PyInt 1) ∧
  tb_data Sample.answer !! 0%nat = Some (PyInt 0).
Proof.
  split.
  - apply (proj1 (proj2 (tb_data_encoding Sample.answer) 1%nat "Cough"
                    eq_refl)).
    reflexivity.
  - apply (proj2 (proj2 (tb_data_encoding Sample.answer) 0%nat "Fever"
                    eq_refl)).
    discriminate.
Defined.

(** ** Further properties of the Hepatitis page *)

(** [features] either maps all ten tri-state fields, or raises the KeyError
    of a field value outside the table. *)
Lemma features_cases (f : hep_form) :
  (∃ vec, features f = Ok vec ∧ length vec = 17%nat ∧
          Forall (λ v, is_ok (map_bool v) = true) (tri_state_fields f)) ∨
  (∃ v, In v (tri_state_fields f) ∧ features f = Raise (KeyError v) ∧
        map_bool v = Raise (KeyError v)).
Proof.
  unfold features.
  next_field f steroid map_bool_raise. next_field f antivirals map_bool_raise. next_field f fatigue map_bool_raise.
  next_field f anorexia map_bool_raise. next_field f liver_big map_bool_raise.
  next_field f spleen_palpable map_bool_raise. next_field f spiders map_bool_raise. next_field f ascites map_bool_raise.
  next_field f varices map_bool_raise. next_field f histology map_bool_raise.
  left. eexists. split; [reflexivity|]. split; [reflexivity|].
  unfold tri_state_fields.
  repeat (apply Forall_cons; split;
          [match goal with H : ?x = Ok _ |- is_ok ?x = true =>
             rewrite H; reflexivity end|]).
  apply Forall_nil. trivial.
Qed.

(** X3: [features] returns a vector exactly when all ten tri-state fields
    hold "False", "True" or "Unknown", and the vector then has 17 entries;
    otherwise it raises the KeyError of one of the field values, a value
    [map_bool] does not map. *)
Theorem features_defined_on_mapped_fields (f : hep_form) :
  (Forall (λ v, is_ok (map_bool v) = true) (tri_state_fields f) ↔
   is_ok (features f) = true) ∧
  (∀ vec, features f = Ok vec → length vec = 17%nat) ∧
  (∀ e, features f = Raise e →
        ∃ v, In v (tri_state_fields f) ∧ e = KeyError v ∧
             map_bool v = Raise (KeyError v)).
Proof.
  destruct (features_cases f) as
    [(vec & Hvec & Hlen & Hall) | (v & Hin & Hraise & Hv)].
  - rewrite Hvec. split; [split; [reflexivity | intros _; exact Hall]|].
    split; [intros vec' [= <-]; exact Hlen | discriminate].
  - rewrite Hraise. split; [split; [|discriminate]|].
    + intros Hall. rewrite Forall_forall in Hall.
      apply list_elem_of_In, Hall in Hin. rewrite Hv in Hin. discriminate.
    + split; [discriminate|]. intros e [= <-]. exists v. auto.
Qed.

Lemma features_defined_on_mapped_fields_witness :
  is_ok (features Sample.form) = true ∧
  length [ PyInt 40; PyInt 0; PyInt 0; PyInt 0; PyInt 0; PyInt 0; PyInt 0;
           PyInt 0; PyInt 1; PyInt 0; PyInt 0; PyInt 0; PyFloat 1;
           PyInt 85; PyInt 25; PyFloat 4; PyInt 85 ] = 17%nat.
Proof.
  pose proof (features_defined_on_mapped_fields Sample.form)
    as (Hiff & Hlen & _).
  split.
  - apply Hiff. unfold tri_state_fields. simpl.
    repeat (apply Forall_cons; split; [reflexivity|]). apply Forall_nil.
    trivial.
  - apply Hlen. reflexivity.
Defined.

(** X4: when a tri-state widget holds a value outside the table, a
    submission with the model present raises the KeyError of such a value
    before the model is called: the trace holds the header alone. *)
Theorem hepatitis_unmapped_field_raises
    (s : registry) (h : handle) (f : hep_form) :
  s !! "hepatitis" = Some (Some h) → submit f = true →
  ¬ Forall (λ v, is_ok (map_bool v) = true) (tri_state_fields f) →
  ∃ v, In v (tri_state_fields f) ∧
       map_bool v = Raise (KeyError v) ∧
       hepatitis_page f s =
         {| trace := [ St StHeader (Text "🫀 Hepatitis Prognosis") ];
            store := s; res := Raise (KeyError v) |}.
Proof.
  intros Hh Hsubmit Hbad.
  destruct (features_cases f) as
    [(vec & _ & _ & Hall) | (v & Hin & Hraise & Hv)]; [contradiction|].
  exists v. split; [exact Hin|]. split; [exact Hv|].
  unfold hepatitis_page. mstep. reflexivity.
Qed.

Lemma hepatitis_unmapped_field_raises_witness :
  ∃ v, In v (tri_state_fields form_with_typo) ∧
       map_bool v = Raise (KeyError v) ∧
       hepatitis_page form_with_typo (Sample.models_of Sample.clf) =
         {| trace := [ St StHeader (Text "🫀 Hepatitis Prognosis") ];
            store := Sample.models_of Sample.clf;
            res := Raise (KeyError v) |}.
Proof.
  apply (hepatitis_unmapped_field_raises
           (Sample.models_of Sample.clf) Sample.clf form_with_typo);
    [reflexivity | reflexivity |].
  intros Hall. apply Forall_cons in Hall as [Hsteroid _].
  vm_compute in Hsteroid. discriminate.
Defined.

(** ** Further properties of the three pages *)

(** X5: no page changes the registry: whatever the widgets hold and the
    models answer, also when the page raises, the dictionary after the
    page is the one before it. *)
Theorem pages_leave_registry_unchanged
    (s : registry) (f : hep_form) (selected : list string)
    (assess : bool) (answer : string → string) (run : bool) :
  store (hepatitis_page f s) = s ∧
  store (hiv_page selected assess s) = s ∧
  store (tb_page answer run s) = s.
Proof.
  split; [|split].
  - hepatitis_cases f s; reflexivity.
  - hiv_cases selected assess s; reflexivity.
  - tb_cases run s; reflexivity.
Qed.

(** X6: a page reads only its own entries of the registry: on two
    registries that agree on "hepatitis" the Hepatitis page has the same
    trace and result, and likewise the HIV page for "hiv" and
    "vectorizer" and the TB page for "tb". *)
Theorem pages_read_their_own_entries
    (s s' : registry) (f : hep_form) (selected : list string)
    (assess : bool) (answer : string → string) (run : bool) :
  (s !! "hepatitis" = s' !! "hepatitis" →
   trace (hepatitis_page f s) = trace (hepatitis_page f s') ∧
   res (hepatitis_page f s) = res (hepatitis_page f s')) ∧
  (s !! "hiv" = s' !! "hiv" → s !! "vectorizer" = s' !! "vectorizer" →
   trace (hiv_page selected assess s) = trace (hiv_page selected assess s') ∧
   res (hiv_page selected assess s) = res (hiv_page selected assess s')) ∧
  (s !! "tb" = s' !! "tb" →
   trace (tb_page answer run s) = trace (tb_page answer run s') ∧
   res (tb_page answer run s) = res (tb_page answer run s')).
Proof.
  split; [|split].
  - intros Heq. symmetry in Heq.
    destruct (s !! "hepatitis") as [[h|]|] eqn:Hs;
      destruct (submit f) eqn:Hsubmit;
      destruct (features f) as [v|e] eqn:Hfeatures;
      unfold hepatitis_page; mstep; repeat mcase; split; reflexivity.
  - intros Hhiv Hvec. symmetry in Hhiv, Hvec.
    destruct (s !! "hiv") as [[h|]|] eqn:Hs;
      destruct (s !! "vectorizer") as [[v|]|] eqn:Hs';
      destruct assess; destruct selected as [|x l];
      unfold hiv_page; mstep; repeat mcase; split; reflexivity.
  - intros Heq. symmetry in Heq.
    destruct (s !! "tb") as [[h|]|] eqn:Hs; destruct run;
      unfold tb_page; mstep; repeat mcase; split; reflexivity.
Qed.

Lemma pages_read_their_own_entries_witness :
  trace (tb_page Sample.answer true (Sample.models_of Sample.clf)) =
  trace (tb_page Sample.answer true (<["tb" := Some Sample.clf]> ∅)).
Proof.
  apply (proj2 (proj2 (pages_read_their_own_entries
                         (Sample.models_of Sample.clf)
                         (<["tb" := Some Sample.clf]> ∅)
                         Sample.form [] false Sample.answer true))).
  reflexivity.
Defined.

(** X7: a run of a page displays at most one message besides its header,
    and a run that raises displays none. *)
Theorem pages_display_at_most_one_message
    (s : registry) (f : hep_form) (selected : list string)
    (assess : bool) (answer : string → string) (run : bool) :
  ((length (displayed (trace (hepatitis_page f s))) ≤ 1)%nat ∧
   (∀ e, res (hepatitis_page f s) = Raise e →
         displayed (trace (hepatitis_page f s)) = [])) ∧
  ((length (displayed (trace (hiv_page selected assess s))) ≤ 1)%nat ∧
   (∀ e, res (hiv_page selected assess s) = Raise e →
         displayed (trace (hiv_page selected assess s)) = [])) ∧
  ((length (displayed (trace (tb_page answer run s))) ≤ 1)%nat ∧
   (∀ e, res (tb_page answer run s) = Raise e →
         displayed (trace (tb_page answer run s)) = [])).
Proof.
  split; [|split].
  - hepatitis_cases f s; simpl; (split; [lia|]); intros e' Hres;
      first [reflexivity | discriminate].
  - hiv_cases selected assess s; simpl; (split; [lia|]); intros e' Hres;
      first [reflexivity | discriminate].
  - tb_cases run s; simpl; (split; [lia|]); intros e' Hres;
      first [reflexivity | discriminate].
Qed.

Lemma pages_display_at_most_one_message_witness :
  displayed (trace (tb_page Sample.answer true (Sample.models_of broken_clf)))
  = [].
Proof.
  apply (proj2 (proj2 (proj2 (pages_display_at_most_one_message
           (Sample.models_of broken_clf) Sample.form [] false
           Sample.answer true)))
           (Exception "X has 8 features, expected 9")).
  reflexivity.
Defined.

(** X8: the HIV page catches nothing.  When the vectorizer raises, the
    page ends with that exception and the model is not called; when
    [predict] raises, [predict_proba] is not called; when [predict_proba]
    raises, the page ends with its exception.  The trace stops at the
    failing call. *)
Theorem hiv_page_propagates_exceptions
    (s : registry) (h v : handle) (selected : list string) (e : exn) :
  s !! "hiv" = Some (Some h) → s !! "vectorizer" = Some (Some v) →
  selected ≠ [] →
  let docs := [String.concat ", " selected] in
  let header := St StHeader (Text "🧪 HIV Risk Assessment") in
  (transform v docs = Raise e →
   hiv_page selected true s =
     {| trace := [ header; Transform "vectorizer" docs ];
        store := s; res := Raise e |}) ∧
  (∀ vec, transform v docs = Ok vec → predict h vec = Raise e →
     hiv_page selected true s =
       {| trace := [ header; Transform "vectorizer" docs; Predict "hiv" vec ];
          store := s; res := Raise e |}) ∧
  (∀ vec preds pred,
     transform v docs = Ok vec → predict h vec = Ok preds →
     py_index preds 0 = Ok pred → predict_proba h vec = Raise e →
     hiv_page selected true s =
       {| trace := [ header; Transform "vectorizer" docs; Predict "hiv" vec;
                     PredictProba "hiv" vec ];
          store := s; res := Raise e |}).
Proof.
  intros Hh Hv Hsel docs header. subst docs header.
  destruct selected as [|x l]; [contradiction|].
  split; [|split].
  - intros Htransform. unfold hiv_page. mstep. reflexivity.
  - intros vec Htransform Hpredict. unfold hiv_page. mstep. reflexivity.
  - intros vec preds pred Htransform Hpredict Hpred Hproba.
    unfold hiv_page. mstep. reflexivity.
Qed.

Lemma hiv_page_propagates_exceptions_witness :
  hiv_page ["Fever"] true (Sample.models_of broken_clf) =
    {| trace := [ St StHeader (Text "🧪 HIV Risk Assessment");
                  Transform "vectorizer" ["Fever"];
                  Predict "hiv" [[PyInt 1; PyInt 0]] ];
       store := Sample.models_of broken_clf;
       res := Raise (Exception "X has 8 features, expected 9") |}.
Proof.
  apply (proj1 (proj2 (hiv_page_propagates_exceptions
           (Sample.models_of broken_clf) broken_clf Sample.vectorizer
           ["Fever"] (Exception "X has 8 features, expected 9")
           eq_refl eq_refl ltac:(discriminate)))
           [[PyInt 1; PyInt 0]]); reflexivity.
Defined.

(** X9: the TB and Hepatitis pages catch nothing either.  When the TB
    model's [predict] raises, [predict_proba] is not called and the page
    ends with that exception; when its [predict_proba] raises, the page
    ends with that one; when the Hepatitis model's [predict] raises, so
    does the page. *)
Theorem tb_and_hepatitis_pages_propagate_exceptions
    (s : registry) (h : handle) (answer : string → string)
    (f : hep_form) (e : exn) :
  (s !! "tb" = Some (Some h) →
   predict h [tb_data answer] = Raise e →
   tb_page answer true s =
     {| trace := [ St StHeader (Text "🫁 Tuberculosis Screening");
                   Predict "tb" [tb_data answer] ];
        store := s; res := Raise e |}) ∧
  (∀ preds pred,
     s !! "tb" = Some (Some h) →
     predict h [tb_data answer] = Ok preds → py_index preds 0 = Ok pred →
     predict_proba h [tb_data answer] = Raise e →
     tb_page answer true s =
       {| trace := [ St StHeader (Text "🫁 Tuberculosis Screening");
                     Predict "tb" [tb_data answer];
                     PredictProba "tb" [tb_data answer] ];
          store := s; res := Raise e |}) ∧
  (∀ v,
     s !! "hepatitis" = Some (Some h) → submit f = true →
     features f = Ok v → predict h [v] = Raise e →
     hepatitis_page f s =
       {| trace := [ St StHeader (Text "🫀 Hepatitis Prognosis");
                     Predict "hepatitis" [v] ];
          store := s; res := Raise e |}).
Proof.
  split; [|split].
  - intros Hh Hpredict. unfold tb_page. mstep. reflexivity.
  - intros preds pred Hh Hpredict Hpred Hproba. unfold tb_page. mstep.
    reflexivity.
  - intros v Hh Hsubmit Hfeatures Hpredict. unfold hepatitis_page. mstep.
    reflexivity.
Qed.

Lemma tb_and_hepatitis_pages_propagate_exceptions_witness :
  tb_page Sample.answer true (Sample.models_of broken_clf) =
    {| trace := [ St StHeader (Text "🫁 Tuberculosis Screening");
                  Predict "tb" [tb_data Sample.answer] ];
       store := Sample.models_of broken_clf;
       res := Raise (Exception "X has 8 features, expected 9") |}.
Proof.
  apply (proj1 (tb_and_hepatitis_pages_propagate_exceptions
           (Sample.models_of broken_clf) broken_clf Sample.answer
           Sample.form (Exception "X has 8 features, expected 9")));
    reflexivity.
Defined.

(** X10: a model whose [predict] returns an empty array makes every page
    raise IndexError at the subscript [0]: no message is displayed and, on
    the HIV and TB pages, [predict_proba] is not called. *)
Theorem empty_prediction_raises_index_error
    (s : registry) (h v : handle) (selected : list string)
    (answer : string → string) (f : hep_form) :
  (∀ vec,
     s !! "hiv" = Some (Some h) → s !! "vectorizer" = Some (Some v) →
     selected ≠ [] →
     transform v [String.concat ", " selected] = Ok vec →
     predict h vec = Ok [] →
     hiv_page selected true s =
       {| trace := [ St StHeader (Text "🧪 HIV Risk Assessment");
                     Transform "vectorizer" [String.concat ", " selected];
                     Predict "hiv" vec ];
          store := s; res := Raise IndexError |}) ∧
  (s !! "tb" = Some (Some h) → predict h [tb_data answer] = Ok [] →
   tb_page answer true s =
     {| trace := [ St StHeader (Text "🫁 Tuberculosis Screening");
                   Predict "tb" [tb_data answer] ];
        store := s; res := Raise IndexError |}) ∧
  (∀ vec,
     s !! "hepatitis" = Some (Some h) → submit f = true →
     features f = Ok vec → predict h [vec] = Ok [] →
     hepatitis_page f s =
       {| trace := [ St StHeader (Text "🫀 Hepatitis Prognosis");
                     Predict "hepatitis" [vec] ];
          store := s; res := Raise IndexError |}).
Proof.
  split; [|split].
  - intros vec Hh Hv Hsel Htransform Hpredict.
    destruct selected as [|x l]; [contradiction|].
    unfold hiv_page. mstep. reflexivity.
  - intros Hh Hpredict. unfold tb_page. mstep. reflexivity.
  - intros vec Hh Hsubmit Hfeatures Hpredict. unfold hepatitis_page. mstep.
    reflexivity.
Qed.

Lemma empty_prediction_raises_index_error_witness :
  tb_page Sample.answer true (Sample.models_of silent_clf) =
    {| trace := [ St StHeader (Text "🫁 Tuberculosis Screening");
                  Predict "tb" [tb_data Sample.answer] ];
       store := Sample.models_of silent_clf; res := Raise IndexError |}.
Proof.
  apply (proj1 (proj2 (empty_prediction_raises_index_error
           (Sample.models_of silent_clf) silent_clf Sample.vectorizer []
           Sample.answer Sample.form))); reflexivity.
Defined.

(** X11: nothing happens before the button is pressed: on any registry a
    page whose button is not pressed calls no loaded object, and with its
    models present it shows the header alone and returns. *)
Theorem pages_wait_for_their_button
    (s : registry) (h v : handle) (f : hep_form) (selected : list string)
    (answer : string → string) :
  (submit f = false →
   model_calls (trace (hepatitis_page f s)) = [] ∧
   (s !! "hepatitis" = Some (Some h) →
    hepatitis_page f s =
      {| trace := [ St StHeader (Text "🫀 Hepatitis Prognosis") ];
         store := s; res := Ok tt |})) ∧
  (model_calls (trace (hiv_page selected false s)) = [] ∧
   (s !! "hiv" = Some (Some h) → s !! "vectorizer" = Some (Some v) →
    hiv_page selected false s =
      {| trace := [ St StHeader (Text "🧪 HIV Risk Assessment") ];
         store := s; res := Ok tt |})) ∧
  (model_calls (trace (tb_page answer false s)) = [] ∧
   (s !! "tb" = Some (Some h) →
    tb_page answer false s =
      {| trace := [ St StHeader (Text "🫁 Tuberculosis Screening") ];
         store := s; res := Ok tt |})).
Proof.
  split; [|split].
  - intros Hsubmit. split.
    + destruct (s !! "hepatitis") as [[h'|]|] eqn:Hh;
        unfold hepatitis_page; mstep; reflexivity.
    + intros Hh. unfold hepatitis_page. mstep. reflexivity.
  - split.
    + destruct (s !! "hiv") as [[h'|]|] eqn:Hh;
        destruct (s !! "vectorizer") as [[v'|]|] eqn:Hv;
        unfold hiv_page; mstep; reflexivity.
    + intros Hh Hv. unfold hiv_page. mstep. reflexivity.
  - split.
    + destruct (s !! "tb") as [[h'|]|] eqn:Hh;
        unfold tb_page; mstep; reflexivity.
    + intros Hh. unfold tb_page. mstep. reflexivity.
Qed.

Lemma pages_wait_for_their_button_witness :
  model_calls
    (trace (hepatitis_page form_not_submitted (Sample.models_of Sample.clf)))
  = [] ∧
  hepatitis_page form_not_submitted (Sample.models_of Sample.clf) =
    {| trace := [ St StHeader (Text "🫀 Hepatitis Prognosis") ];
       store := Sample.models_of Sample.clf; res := Ok tt |} ∧
  tb_page Sample.answer false (Sample.models_of Sample.clf) =
    {| trace := [ St StHeader (Text "🫁 Tuberculosis Screening") ];
       store := Sample.models_of Sample.clf; res := Ok tt |}.
Proof.
  pose proof (pages_wait_for_their_button
                (Sample.models_of Sample.clf) Sample.clf Sample.vectorizer
                form_not_submitted [] Sample.answer)
    as (Hhep & _ & _ & Htb).
  destruct (Hhep eq_refl) as (Hcalls & Hrun).
  split; [exact Hcalls|]. split; [apply Hrun | apply Htb]; reflexivity.
Defined.

(** ** Which objects a run calls, and on what *)

Lemma hepatitis_page_calls (f : hep_form) (s : registry) (ev : event) :
  In ev (model_calls (trace (hepatitis_page f s))) →
  ∃ v, features f = Ok v ∧ ev = Predict "hepatitis" [v].
Proof.
  hepatitis_cases f s; simpl; intros Hin;
    repeat (destruct Hin as [<-|Hin]); try contradiction; eauto.
Qed.

Lemma hiv_page_calls
    (selected : list string) (assess : bool) (s : registry) (ev : event) :
  In ev (model_calls (trace (hiv_page selected assess s))) →
  ev = Transform "vectorizer" [String.concat ", " selected] ∨
  ∃ v vec, s !! "vectorizer" = Some (Some v) ∧
           transform v [String.concat ", " selected] = Ok vec ∧
           (ev = Predict "hiv" vec ∨ ev = PredictProba "hiv" vec).
Proof.
  hiv_cases selected assess s; simpl; intros Hin;
    repeat (destruct Hin as [<-|Hin]); try contradiction; eauto 10.
Qed.

Lemma tb_page_calls
    (answer : string → string) (run : bool) (s : registry) (ev : event) :
  In ev (model_calls (trace (tb_page answer run s))) →
  ev = Predict "tb" [tb_data answer] ∨
  ev = PredictProba "tb" [tb_data answer].
Proof.
  tb_cases run s; simpl; intros Hin;
    repeat (destruct Hin as [<-|Hin]); try contradiction; eauto.
Qed.

(** X12: what the models are called on.  Every call of the Hepatitis page
    is [predict] on the one row [features]; every call of the TB page is
    [predict] or [predict_proba] on the one row [tb_data]; on the HIV page
    the vectorizer gets the joined selection, and [predict] and
    [predict_proba] both get exactly what the vectorizer returned. *)
Theorem pages_call_models_on_their_vector
    (s : registry) (f : hep_form) (selected : list string) (assess : bool)
    (answer : string → string) (run : bool) (ev : event) :
  (In ev (model_calls (trace (hepatitis_page f s))) →
   ∃ v, features f = Ok v ∧ ev = Predict "hepatitis" [v]) ∧
  (In ev (model_calls (trace (hiv_page selected assess s))) →
   ev = Transform "vectorizer" [String.concat ", " selected] ∨
   ∃ v vec, s !! "vectorizer" = Some (Some v) ∧
            transform v [String.concat ", " selected] = Ok vec ∧
            (ev = Predict "hiv" vec ∨ ev = PredictProba "hiv" vec)) ∧
  (In ev (model_calls (trace (tb_page answer run s))) →
   ev = Predict "tb" [tb_data answer] ∨
   ev = PredictProba "tb" [tb_data answer]).
Proof.
  split; [apply hepatitis_page_calls|].
  split; [apply hiv_page_calls | apply tb_page_calls].
Qed.

Lemma pages_call_models_on_their_vector_witness :
  PredictProba "tb" [tb_data Sample.answer] = Predict "tb" [tb_data Sample.answer] ∨
  PredictProba "tb" [tb_data Sample.answer] =
    PredictProba "tb" [tb_data Sample.answer].
Proof.
  apply (proj2 (proj2 (pages_call_models_on_their_vector
           (Sample.models_of Sample.clf) Sample.form [] false
           Sample.answer true (PredictProba "tb" [tb_data Sample.answer])))).
  simpl. right. left. reflexivity.
Defined.

(** ** The whole script *)

(** Sequencing: the outcome of [m ≫= f] when [m] returns. *)
Lemma run_bind {A B} (m : M A) (f : A → M B) (s : registry) (a : A) :
  res (m s) = Ok a →
  (m ≫= f) s =
    {| trace := trace (m s) ++ trace (f a (store (m s)));
       store := store (f a (store (m s)));
       res := res (f a (store (m s))) |}.
Proof.
  intros Hres. unfold mbind, M_bind.
  destruct (m s) as [t s' r]. simpl in Hres. subst r. simpl.
  destruct (f a s') as [t' s'' r']. reflexivity.
Qed.

(** X13: a run of the script calls only the objects of the chosen page:
    every call goes through "hepatitis" on the Hepatitis page, through
    "vectorizer" or "hiv" on the HIV page, through "tb" on the
    Tuberculosis page, and with any other choice no call is made. *)
Theorem main_calls_only_the_chosen_page
    (ld : string → result handle) (u : session) (s0 : registry)
    (ev : event) :
  In ev (model_calls (trace (main ld u s0))) →
  (choice u = "Hepatitis" ∧ call_key ev = Some "hepatitis") ∨
  (choice u = "HIV" ∧
   (call_key ev = Some "vectorizer" ∨ call_key ev = Some "hiv")) ∨
  (choice u = "Tuberculosis" ∧ call_key ev = Some "tb").
Proof.
  unfold main.
  rewrite (trace_bind _ _ _ _ (load_models_returns ld s0)).
  rewrite model_calls_app, load_models_no_model_calls. simpl.
  destruct (String.eqb_spec (choice u) "Hepatitis") as [Hhep|_].
  { intros Hin. apply hepatitis_page_calls in Hin as (v & _ & ->).
    left. split; [exact Hhep | reflexivity]. }
  destruct (String.eqb_spec (choice u) "HIV") as [Hhiv|_].
  { intros Hin. right; left. split; [exact Hhiv|].
    apply hiv_page_calls in Hin as [->|(v & vec & _ & _ & [->| ->])];
      simpl; auto. }
  destruct (String.eqb_spec (choice u) "Tuberculosis") as [Htb|_].
  { intros Hin. right; right. split; [exact Htb|].
    apply tb_page_calls in Hin as [->| ->]; reflexivity. }
  intros [].
Qed.

Lemma main_calls_only_the_chosen_page_witness :
  ("Tuberculosis" = "Hepatitis" ∧
   call_key (Predict "tb" [tb_data Sample.answer]) = Some "hepatitis") ∨
  ("Tuberculosis" = "HIV" ∧
   (call_key (Predict "tb" [tb_data Sample.answer]) = Some "vectorizer" ∨
    call_key (Predict "tb" [tb_data Sample.answer]) = Some "hiv")) ∨
  ("Tuberculosis" = "Tuberculosis" ∧
   call_key (Predict "tb" [tb_data Sample.answer]) = Some "tb").
Proof.
  apply (main_calls_only_the_chosen_page Sample.disk
           (session_on "Tuberculosis") ∅
           (Predict "tb" [tb_data Sample.answer])).
  vm_compute. left. reflexivity.
Defined.

(** The hepatitis and tb entries after loading. *)
Lemma load_models_single_entries (ld : string → result handle) (s0 : registry) :
  store (load_models ld s0) !! "hepatitis" =
    Some (to_entry (ld "models/hepatitis_model.pkl")) ∧
  store (load_models ld s0) !! "tb" =
    Some (to_entry (ld "models/tb_predictor_model.pkl")).
Proof. load_cases ld; split; reflexivity. Qed.

Lemma hepatitis_page_unavailable (f : hep_form) (s : registry) :
  s !! "hepatitis" = Some None →
  hepatitis_page f s =
    {| trace := [ St StHeader (Text "🫀 Hepatitis Prognosis");
                  St StError (Text "⚠️ Hepatitis model not found.") ];
       store := s; res := Ok tt |}.
Proof. intros Hh. unfold hepatitis_page. mstep. reflexivity. Qed.

Lemma hiv_page_unavailable
    (selected : list string) (assess : bool) (s : registry) :
  s !! "hiv" = Some None →
  hiv_page selected assess s =
    {| trace := [ St StHeader (Text "🧪 HIV Risk Assessment");
                  St StError (Text "⚠️ Model or vectorizer not found.") ];
       store := s; res := Ok tt |}.
Proof. intros Hh. unfold hiv_page. mstep. reflexivity. Qed.

Lemma tb_page_unavailable
    (answer : string → string) (run : bool) (s : registry) :
  s !! "tb" = Some None →
  tb_page answer run s =
    {| trace := [ St StHeader (Text "🫁 Tuberculosis Screening");
                  St StError (Text "⚠️ TB model not found.") ];
       store := s; res := Ok tt |}.
Proof. intros Hh. unfold tb_page. mstep. reflexivity. Qed.

(** X14: a failed load is not fatal and disables its page.  On the
    registry [load_models] returns, the page of an artifact that failed to
    load (the HIV page: the model or the vectorizer) shows its header and
    the "not found" error and returns, whatever the widgets hold and the
    buttons say.  A run of the script on that page returns normally, calls
    no loaded object, and ends with that header and that error. *)
Theorem failed_load_disables_page
    (ld : string → result handle) (s0 : registry) (u : session)
    (f : hep_form) (selected : list string) (assess : bool)
    (answer : string → string) (run : bool) :
  let m := store (load_models ld s0) in
  let hepatitis_off :=
    [ St StHeader (Text "🫀 Hepatitis Prognosis");
      St StError (Text "⚠️ Hepatitis model not found.") ] in
  let hiv_off :=
    [ St StHeader (Text "🧪 HIV Risk Assessment");
      St StError (Text "⚠️ Model or vectorizer not found.") ] in
  let tb_off :=
    [ St StHeader (Text "🫁 Tuberculosis Screening");
      St StError (Text "⚠️ TB model not found.") ] in
  (is_ok (ld "models/hepatitis_model.pkl") = false →
   hepatitis_page f m =
     {| trace := hepatitis_off; store := m; res := Ok tt |} ∧
   (choice u = "Hepatitis" →
    res (main ld u s0) = Ok tt ∧
    model_calls (trace (main ld u s0)) = [] ∧
    ∃ before, trace (main ld u s0) = (before ++ hepatitis_off)%list)) ∧
  (is_ok (ld "models/hiv_model.pkl") = false ∨
   is_ok (ld "models/vectorizer.pkl") = false →
   hiv_page selected assess m =
     {| trace := hiv_off; store := m; res := Ok tt |} ∧
   (choice u = "HIV" →
    res (main ld u s0) = Ok tt ∧
    model_calls (trace (main ld u s0)) = [] ∧
    ∃ before, trace (main ld u s0) = (before ++ hiv_off)%list)) ∧
  (is_ok (ld "models/tb_predictor_model.pkl") = false →
   tb_page answer run m =
     {| trace := tb_off; store := m; res := Ok tt |} ∧
   (choice u = "Tuberculosis" →
    res (main ld u s0) = Ok tt ∧
    model_calls (trace (main ld u s0)) = [] ∧
    ∃ before, trace (main ld u s0) = (before ++ tb_off)%list)).
Proof.
  intros m hepatitis_off hiv_off tb_off.
  subst m hepatitis_off hiv_off tb_off.
  destruct (load_models_single_entries ld s0) as [Hhep Htb].
  split; [|split].
  - intros Hfail.
    assert (Hnone : store (load_models ld s0) !! "hepatitis" = Some None).
    { rewrite Hhep. destruct (ld "models/hepatitis_model.pkl");
        [discriminate | reflexivity]. }
    split; [apply hepatitis_page_unavailable, Hnone|].
    intros Hchoice. unfold main.
    rewrite (run_bind _ _ _ _ (load_models_returns ld s0)).
    rewrite Hchoice. simpl.
    rewrite (hepatitis_page_unavailable _ _ Hnone). simpl.
    split; [reflexivity|]. split; [|eexists; reflexivity].
    rewrite model_calls_app, load_models_no_model_calls. reflexivity.
  - intros Hfail.
    assert (Hnone : store (load_models ld s0) !! "hiv" = Some None).
    { destruct (load_models_hiv_entries ld s0) as
        [(h & v & Hh & Hv & _) | (_ & Hnone & _)]; [|exact Hnone].
      rewrite Hh, Hv in Hfail. destruct Hfail; discriminate. }
    split; [apply hiv_page_unavailable, Hnone|].
    intros Hchoice. unfold main.
    rewrite (run_bind _ _ _ _ (load_models_returns ld s0)).
    rewrite Hchoice. simpl.
    rewrite (hiv_page_unavailable _ _ _ Hnone). simpl.
    split; [reflexivity|]. split; [|eexists; reflexivity].
    rewrite model_calls_app, load_models_no_model_calls. reflexivity.
  - intros Hfail.
    assert (Hnone : store (load_models ld s0) !! "tb" = Some None).
    { rewrite Htb. destruct (ld "models/tb_predictor_model.pkl");
        [discriminate | reflexivity]. }
    split; [apply tb_page_unavailable, Hnone|].
    intros Hchoice. unfold main.
    rewrite (run_bind _ _ _ _ (load_models_returns ld s0)).
    rewrite Hchoice. simpl.
    rewrite (tb_page_unavailable _ _ _ Hnone). simpl.
    split; [reflexivity|]. split; [|eexists; reflexivity].
    rewrite model_calls_app, load_models_no_model_calls. reflexivity.
Qed.

Lemma failed_load_disables_page_witness :
  hiv_page ["Fever"] true (store (load_models Sample.disk_without_hiv ∅)) =
    {| trace := [ St StHeader (Text "🧪 HIV Risk Assessment");
                  St StError (Text "⚠️ Model or vectorizer not found.") ];
       store := store (load_models Sample.disk_without_hiv ∅);
       res := Ok tt |} ∧
  res (main Sample.disk_without_hiv (session_on "HIV") ∅) = Ok tt ∧
  model_calls (trace (main Sample.disk_without_hiv (session_on "HIV") ∅)) =
    [].
Proof.
  destruct (proj1 (proj2 (failed_load_disables_page
                            Sample.disk_without_hiv ∅ (session_on "HIV")
                            Sample.form ["Fever"] true Sample.answer true))
              (or_introl eq_refl)) as (Hpage & Hmain).
  destruct (Hmain eq_refl) as (Hres & Hcalls & _).
  split; [exact Hpage|]. split; [exact Hres | exact Hcalls].
Defined.

(** ** The range of the Hepatitis vector *)

(** X15: in every vector [features] returns, entry 0 is the age, entry 1
    is the sex code 0 or 1, and entries 2 to 11, the encoded tri-state
    fields, are each -1, 0 or 1. *)
Theorem hepatitis_vector_codes (f : hep_form) (vec : list num) :
  features f = Ok vec →
  vec !! 0%nat = Some (PyInt (age f)) ∧
  (vec !! 1%nat = Some (PyInt 0) ∨ vec !! 1%nat = Some (PyInt 1)) ∧
  (∀ i : nat, (2 ≤ i ≤ 11)%nat →
     vec !! i = Some (PyInt (-1)) ∨ vec !! i = Some (PyInt 0) ∨
     vec !! i = Some (PyInt 1)).
Proof.
  unfold features.
  destruct (map_bool (steroid f)) as [c1|] eqn:H1; [|discriminate].
  destruct (map_bool (antivirals f)) as [c2|] eqn:H2; [|discriminate].
  destruct (map_bool (fatigue f)) as [c3|] eqn:H3; [|discriminate].
  destruct (map_bool (anorexia f)) as [c4|] eqn:H4; [|discriminate].
  destruct (map_bool (liver_big f)) as [c5|] eqn:H5; [|discriminate].
  destruct (map_bool (spleen_palpable f)) as [c6|] eqn:H6; [|discriminate].
  destruct (map_bool (spiders f)) as [c7|] eqn:H7; [|discriminate].
  destruct (map_bool (ascites f)) as [c8|] eqn:H8; [|discriminate].
  destruct (map_bool (varices f)) as [c9|] eqn:H9; [|discriminate].
  destruct (map_bool (histology f)) as [c10|] eqn:H10; [|discriminate].
  cbn [mbind result_bind mret result_ret]. intros [= <-].
  split; [reflexivity|]. split.
  - unfold map_sex. destruct (String.eqb (sex f) "male"); auto.
  - assert (Hcode : ∀ val c, map_bool val = Ok c → c = -1 ∨ c = 0 ∨ c = 1).
    { intros val c Hc.
      apply map_bool_ok in Hc as [[_ ->]|[[_ ->]|[_ ->]]]; auto. }
    apply Hcode in H1, H2, H3, H4, H5, H6, H7, H8, H9, H10.
    intros i [Hlo Hhi].
    do 2 (destruct i as [|i]; [lia|]).
    do 10 (destruct i as [|i];
           [ simpl;
             match goal with
             | H : ?c = -1 ∨ ?c = 0 ∨ ?c = 1
               |- Some (PyInt ?c) = _ ∨ _ =>
                 destruct H as [->|[->| ->]]; auto
             end
           | ]).
    lia.
Qed.

Lemma hepatitis_vector_codes_witness :
  [ PyInt 40; PyInt 0; PyInt 0; PyInt 0; PyInt 0; PyInt 0; PyInt 0;
    PyInt 0; PyInt 1; PyInt 0; PyInt 0; PyInt 0; PyFloat 1;
    PyInt 85; PyInt 25; PyFloat 4; PyInt 85 ] !! 0%nat =
  Some (PyInt (age Sample.form)).
Proof.
  apply (hepatitis_vector_codes Sample.form). reflexivity.
Defined.

(** ** Forms filled in through the widgets *)

Lemma tri_state_option_mapped (val : string) :
  In val tri_state_options → is_ok (map_bool val) = true.
Proof. intros [<-|[<-|[<-|[]]]]; reflexivity. Qed.

Lemma binary_option_mapped (val : string) :
  In val binary_options → is_ok (map_bool val) = true.
Proof. intros [<-|[<-|[]]]; reflexivity. Qed.

(** X16: the select boxes protect [map_bool]: for a form in which every
    select box holds one of its options, [features] raises no KeyError,
    and a submission with the model present reaches the model with the
    feature vector as the one row of the one call. *)
Theorem selectable_form_reaches_model (f : hep_form) :
  selectable f →
  ∃ vec, features f = Ok vec ∧
         ∀ (s : registry) (h : handle),
           s !! "hepatitis" = Some (Some h) → submit f = true →
           model_calls (trace (hepatitis_page f s)) =
             [ Predict "hepatitis" [vec] ].
Proof.
  intros (_ & Hsteroid & Hantivirals & Hfatigue & Hanorexia & Hspiders &
          Hascites & Hliver & Hspleen & Hvarices & Hhistology).
  destruct (features_cases f) as
    [(vec & Hvec & _ & _) | (v & Hin & _ & Hv)].
  - exists vec. split; [exact Hvec|].
    intros s h Hh Hsubmit. unfold hepatitis_page. mstep.
    repeat mcase; reflexivity.
  - exfalso.
    assert (Hok : is_ok (map_bool v) = true).
    { unfold tri_state_fields in Hin. simpl in Hin.
      destruct Hin as [<-|[<-|[<-|[<-|[<-|[<-|[<-|[<-|[<-|[<-|[]]]]]]]]]]];
        first [ apply tri_state_option_mapped; assumption
              | apply binary_option_mapped; assumption ]. }
    rewrite Hv in Hok. discriminate.
Qed.

Lemma selectable_form_reaches_model_witness :
  ∃ vec, features Sample.form = Ok vec ∧
         ∀ (s : registry) (h : handle),
           s !! "hepatitis" = Some (Some h) → submit Sample.form = true →
           model_calls (trace (hepatitis_page Sample.form s)) =
             [ Predict "hepatitis" [vec] ].
Proof.
  apply (selectable_form_reaches_model Sample.form).
  unfold selectable, tri_state_options, binary_options. simpl.
  repeat split; auto.
Defined.
